(** * go-restful: the WebService container (web_service.go)

    A shallow embedding of [WebService] and its methods.  Go pointers are
    addresses into typed stores, a method with a pointer receiver is a
    computation over those stores, and a call either returns, ends the
    process through [log.Fatalf], or panics on a pointer that holds no
    object. *)

From Stdlib Require Import Ascii.
From stdpp Require Import base option strings list gmap.

(** ** Collaborators declared outside web_service.go *)

(** The types and functions that web_service.go uses but that other files of
    the package declare.  [NewPathExpression] is Go's
    [NewPathExpression(path)], which returns a pointer to a PathExpression
    and an error: [inl] carries the compiled expression, [inr] the text of
    the error.  [concatPath] joins a
    root path and a sub-path into one template.  [FilterFunction] is the type
    of filter callbacks, which the container only stores. *)
Class Collaborators := {
  PathExpression : Type;
  NewPathExpression : string → PathExpression + string;
  concatPath : string → string → string;
  FilterFunction : Type;
}.

(** ** Outcome of a call *)

Inductive Outcome (A : Type) : Type :=
| Returns (a : A)
| Fatal (msg : string)
| Panics.
Arguments Returns {A} a.
Arguments Fatal {A} msg.
Arguments Panics {A}.

(** ** Parameters (documentation metadata) *)

(** Modelled from the spec: the kinds a Parameter can have; parameter.go is
    absent from the sources.  The spec lists
    [kind: enum{Path, Query, Body, Header, Form}]. *)
Inductive ParameterKind := KindPath | KindQuery | KindBody | KindHeader | KindForm.

(** Modelled from the spec: the zero value of a kind, which a struct literal
    that leaves the field out holds; parameter.go is absent, and the first
    kind of the enumeration is taken. *)
Definition zero_Kind : ParameterKind := KindPath.

(** Modelled from the spec: [ParameterData], of which web_service.go shows the
    fields [Name], [Description] and [Required]; [Kind] and [DataType] come
    from the spec's data model. *)
Record ParameterData := {
  Name : string;
  Description : string;
  Kind : ParameterKind;
  Required : bool;
  DataType : string;
}.

(** Modelled from the spec: the struct [Parameter] (a reserved word here,
    hence the longer name) wraps a pointer to its data, as the literal
    [&Parameter{&ParameterData{...}}] of web_service.go shows. *)
Record ParameterStruct := { data : nat }.

Definition set_Kind (k : ParameterKind) (d : ParameterData) : ParameterData :=
  {| Name := Name d; Description := Description d; Kind := k;
     Required := Required d; DataType := DataType d |}.

(** ** Routes and their builder *)

Section Model.
Context `{Collaborators}.

(** Modelled from the spec: the immutable [Route] that [Build] produces;
    route.go is absent.  Of the spec's data model the method, the complete
    path template, its compiled matcher and the two content-type lists are
    kept. *)
Record Route := {
  Route_Method : string;
  Route_Path : string;
  Route_pathExpr : PathExpression;
  Route_Produces : list string;
  Route_Consumes : list string;
}.

(** Modelled from the spec: the mutable [RouteBuilder]; route_builder.go is
    absent.  The fields are those the calls in web_service.go reach: the root
    path ([servicePath]), the sub-path ([Path]), the method ([Method]) and the
    two content-type lists ([copyDefaults]). *)
Record RouteBuilder := {
  rb_rootPath : string;
  rb_currentPath : string;
  rb_httpMethod : string;
  rb_produces : list string;
  rb_consumes : list string;
}.

(** [new(RouteBuilder)]: every field at its zero value. *)
Definition zero_RouteBuilder : RouteBuilder :=
  {| rb_rootPath := ""; rb_currentPath := ""; rb_httpMethod := "";
     rb_produces := []; rb_consumes := [] |}.

Definition set_rb_rootPath (v : string) (b : RouteBuilder) : RouteBuilder :=
  {| rb_rootPath := v; rb_currentPath := rb_currentPath b;
     rb_httpMethod := rb_httpMethod b; rb_produces := rb_produces b;
     rb_consumes := rb_consumes b |}.

Definition set_rb_currentPath (v : string) (b : RouteBuilder) : RouteBuilder :=
  {| rb_rootPath := rb_rootPath b; rb_currentPath := v;
     rb_httpMethod := rb_httpMethod b; rb_produces := rb_produces b;
     rb_consumes := rb_consumes b |}.

Definition set_rb_httpMethod (v : string) (b : RouteBuilder) : RouteBuilder :=
  {| rb_rootPath := rb_rootPath b; rb_currentPath := rb_currentPath b;
     rb_httpMethod := v; rb_produces := rb_produces b;
     rb_consumes := rb_consumes b |}.

Definition set_rb_produces (v : list string) (b : RouteBuilder) : RouteBuilder :=
  {| rb_rootPath := rb_rootPath b; rb_currentPath := rb_currentPath b;
     rb_httpMethod := rb_httpMethod b; rb_produces := v;
     rb_consumes := rb_consumes b |}.

Definition set_rb_consumes (v : list string) (b : RouteBuilder) : RouteBuilder :=
  {| rb_rootPath := rb_rootPath b; rb_currentPath := rb_currentPath b;
     rb_httpMethod := rb_httpMethod b; rb_produces := rb_produces b;
     rb_consumes := v |}.

(** ** The WebService struct *)

(** A slice is a list; a nil slice and an empty one are both [[]], which
    [len], [append] and [range] do not tell apart.  [pathExpression] is a
    pointer, nil ([None]) until [Path] has run; [pathParameters] holds
    pointers to [Parameter] objects. *)
Record WebService := {
  rootPath : string;
  pathExpression : option PathExpression;
  routes : list Route;
  produces : list string;
  consumes : list string;
  pathParameters : list nat;
  filters : list FilterFunction;
}.

(** The zero value, what [new(WebService)] points to. *)
Definition zero_WebService : WebService :=
  {| rootPath := ""; pathExpression := None; routes := []; produces := [];
     consumes := []; pathParameters := []; filters := [] |}.

Definition set_rootPath (v : string) (s : WebService) : WebService :=
  {| rootPath := v; pathExpression := pathExpression s; routes := routes s;
     produces := produces s; consumes := consumes s;
     pathParameters := pathParameters s; filters := filters s |}.

Definition set_pathExpression (v : option PathExpression) (s : WebService) : WebService :=
  {| rootPath := rootPath s; pathExpression := v; routes := routes s;
     produces := produces s; consumes := consumes s;
     pathParameters := pathParameters s; filters := filters s |}.

Definition set_routes (v : list Route) (s : WebService) : WebService :=
  {| rootPath := rootPath s; pathExpression := pathExpression s; routes := v;
     produces := produces s; consumes := consumes s;
     pathParameters := pathParameters s; filters := filters s |}.

Definition set_produces (v : list string) (s : WebService) : WebService :=
  {| rootPath := rootPath s; pathExpression := pathExpression s;
     routes := routes s; produces := v; consumes := consumes s;
     pathParameters := pathParameters s; filters := filters s |}.

Definition set_consumes (v : list string) (s : WebService) : WebService :=
  {| rootPath := rootPath s; pathExpression := pathExpression s;
     routes := routes s; produces := produces s; consumes := v;
     pathParameters := pathParameters s; filters := filters s |}.

Definition set_pathParameters (v : list nat) (s : WebService) : WebService :=
  {| rootPath := rootPath s; pathExpression := pathExpression s;
     routes := routes s; produces := produces s; consumes := consumes s;
     pathParameters := v; filters := filters s |}.

Definition set_filters (v : list FilterFunction) (s : WebService) : WebService :=
  {| rootPath := rootPath s; pathExpression := pathExpression s;
     routes := routes s; produces := produces s; consumes := consumes s;
     pathParameters := pathParameters s; filters := v |}.

(** ** The stores and the monad of calls *)

(** One store per struct type; a pointer is an address, and an address with
    no object behind it (nil among them) cannot be dereferenced. *)
Record World := {
  services : gmap nat WebService;
  builders : gmap nat RouteBuilder;
  parameters : gmap nat ParameterStruct;
  parameterData : gmap nat ParameterData;
}.

Definition empty_World : World :=
  {| services := ∅; builders := ∅; parameters := ∅; parameterData := ∅ |}.

Definition set_services (v : gmap nat WebService) (w : World) : World :=
  {| services := v; builders := builders w; parameters := parameters w;
     parameterData := parameterData w |}.

Definition set_builders (v : gmap nat RouteBuilder) (w : World) : World :=
  {| services := services w; builders := v; parameters := parameters w;
     parameterData := parameterData w |}.

Definition set_parameters (v : gmap nat ParameterStruct) (w : World) : World :=
  {| services := services w; builders := builders w; parameters := v;
     parameterData := parameterData w |}.

Definition set_parameterData (v : gmap nat ParameterData) (w : World) : World :=
  {| services := services w; builders := builders w;
     parameters := parameters w; parameterData := v |}.

Definition M (A : Type) : Type := World → Outcome (A * World).

#[export] Instance M_ret : MRet M := λ A a w, Returns (a, w).

#[export] Instance M_bind : MBind M := λ A B f m w,
  match m w with
  | Returns (a, w') => f a w'
  | Fatal msg => Fatal msg
  | Panics => Panics
  end.

(** [log.Fatalf]: the message is written and the process exits; nothing of
    the caller runs afterwards. *)
Definition log_Fatalf {A : Type} (msg : string) : M A := λ _, Fatal msg.

Definition load_WebService (p : nat) : M WebService := λ w,
  match services w !! p with
  | Some v => Returns (v, w)
  | None => Panics
  end.

(** [p.field = e] on a [*WebService]: [f] sets the field, from the object's
    current fields where [e] reads them. *)
Definition assign_WebService (p : nat) (f : WebService → WebService) : M unit := λ w,
  match services w !! p with
  | Some v => Returns ((), set_services (<[p := f v]> (services w)) w)
  | None => Panics
  end.

(** [new(WebService)]. *)
Definition new_WebService : M nat := λ w,
  let p := fresh (dom (services w)) in
  Returns (p, set_services (<[p := zero_WebService]> (services w)) w).

Definition load_RouteBuilder (p : nat) : M RouteBuilder := λ w,
  match builders w !! p with
  | Some v => Returns (v, w)
  | None => Panics
  end.

Definition assign_RouteBuilder (p : nat) (f : RouteBuilder → RouteBuilder) : M unit := λ w,
  match builders w !! p with
  | Some v => Returns ((), set_builders (<[p := f v]> (builders w)) w)
  | None => Panics
  end.

(** [new(RouteBuilder)]. *)
Definition new_RouteBuilder : M nat := λ w,
  let p := fresh (dom (builders w)) in
  Returns (p, set_builders (<[p := zero_RouteBuilder]> (builders w)) w).

(** [&ParameterData{...}] and [&Parameter{...}]: a literal stored at a fresh
    address. *)
Definition new_ParameterData (v : ParameterData) : M nat := λ w,
  let p := fresh (dom (parameterData w)) in
  Returns (p, set_parameterData (<[p := v]> (parameterData w)) w).

Definition new_Parameter (v : ParameterStruct) : M nat := λ w,
  let p := fresh (dom (parameters w)) in
  Returns (p, set_parameters (<[p := v]> (parameters w)) w).

Definition load_Parameter (p : nat) : M ParameterStruct := λ w,
  match parameters w !! p with
  | Some v => Returns (v, w)
  | None => Panics
  end.

Definition assign_ParameterData (p : nat) (f : ParameterData → ParameterData) : M unit := λ w,
  match parameterData w !! p with
  | Some v => Returns ((), set_parameterData (<[p := f v]> (parameterData w)) w)
  | None => Panics
  end.

(** ** Methods of Parameter and RouteBuilder *)

(** Modelled from the spec: [bePath], [beQuery] and [beBody] of the absent
    parameter.go set the kind of the parameter's data and return the
    receiver. *)
Definition Parameter_be (k : ParameterKind) (self : nat) : M nat :=
  p ← load_Parameter self;
  assign_ParameterData (data p) (set_Kind k);;
  mret self.

(** Modelled from the spec: [bePath] of the absent parameter.go. *)
Definition Parameter_bePath : nat → M nat := Parameter_be KindPath.

(** Modelled from the spec: [beQuery] of the absent parameter.go. *)
Definition Parameter_beQuery : nat → M nat := Parameter_be KindQuery.

(** Modelled from the spec: [beBody] of the absent parameter.go. *)
Definition Parameter_beBody : nat → M nat := Parameter_be KindBody.

(** Modelled from the spec: [servicePath] of the absent route_builder.go
    records the service's root path on the builder and returns the
    receiver. *)
Definition RouteBuilder_servicePath (self : nat) (path : string) : M nat :=
  assign_RouteBuilder self (set_rb_rootPath path);;
  mret self.

(** Modelled from the spec: [RouteBuilder.Method] of the absent
    route_builder.go records the HTTP method. *)
Definition RouteBuilder_Method (self : nat) (method : string) : M nat :=
  assign_RouteBuilder self (set_rb_httpMethod method);;
  mret self.

(** Modelled from the spec: [RouteBuilder.Path] of the absent
    route_builder.go records the sub-path. *)
Definition RouteBuilder_Path (self : nat) (subPath : string) : M nat :=
  assign_RouteBuilder self (set_rb_currentPath subPath);;
  mret self.

(** Modelled from the spec: what [copyDefaults] of the absent
    route_builder.go does to the builder's fields.  The spec has the
    service-level lists copied "if the Route did not override them"; a list
    that was never set is its zero value, the empty slice. *)
Definition copyDefaults_fields (rootProduces rootConsumes : list string)
    (b : RouteBuilder) : RouteBuilder :=
  let b1 := match rb_produces b with
            | [] => set_rb_produces rootProduces b
            | _ :: _ => b
            end in
  match rb_consumes b1 with
  | [] => set_rb_consumes rootConsumes b1
  | _ :: _ => b1
  end.

(** Modelled from the spec: [copyDefaults] of the absent route_builder.go,
    on a pointer to the builder. *)
Definition RouteBuilder_copyDefaults (self : nat)
    (rootProduces rootConsumes : list string) : M unit :=
  assign_RouteBuilder self (copyDefaults_fields rootProduces rootConsumes).

(** Modelled from the spec: the Route that [Build] of the absent
    route_builder.go makes from the builder's fields.  The root path and the
    sub-path are combined into the complete template, which is compiled; an
    invalid template is a configuration error. *)
Definition Build_fields (b : RouteBuilder) : Route + string :=
  let template := concatPath (rb_rootPath b) (rb_currentPath b) in
  match NewPathExpression template with
  | inl compiled =>
      inl {| Route_Method := rb_httpMethod b; Route_Path := template;
             Route_pathExpr := compiled; Route_Produces := rb_produces b;
             Route_Consumes := rb_consumes b |}
  | inr err => inr ("[restful] Invalid path:" +:+ template +:+ " because:" +:+ err)
  end.

(** Modelled from the spec: [Build] of the absent route_builder.go; a
    template that does not compile ends the process, as the spec requires of
    configuration errors. *)
Definition RouteBuilder_Build (self : nat) : M Route :=
  b ← load_RouteBuilder self;
  match Build_fields b with
  | inl route => mret route
  | inr msg => log_Fatalf msg
  end.

(** ** Methods of WebService (web_service.go) *)

Definition WebService_Path (self : nat) (root : string) : M nat :=
  assign_WebService self (set_rootPath root);;
  match NewPathExpression root with
  | inr err =>
      log_Fatalf ("[restful] Invalid path:" +:+ root +:+ " because:" +:+ err)
  | inl compiled =>
      assign_WebService self (set_pathExpression (Some compiled));;
      mret self
  end.

Definition WebService_RootExpression (self : WebService) : option PathExpression :=
  pathExpression self.

Definition WebService_Param (self : nat) (parameter : nat) : M nat :=
  s ← load_WebService self;
  (match pathParameters s with
   | [] => assign_WebService self (set_pathParameters [])
   | _ :: _ => mret ()
   end);;
  assign_WebService self (λ s, set_pathParameters (pathParameters s ++ [parameter]) s);;
  mret self.

Definition WebService_PathParameter (self : nat) (name description : string) : M nat :=
  d ← new_ParameterData
        {| Name := name; Description := description; Kind := zero_Kind;
           Required := true; DataType := "" |};
  p ← new_Parameter {| data := d |};
  Parameter_bePath p;;
  mret p.

Definition WebService_QueryParameter (self : nat) (name description : string) : M nat :=
  d ← new_ParameterData
        {| Name := name; Description := description; Kind := zero_Kind;
           Required := false; DataType := "" |};
  p ← new_Parameter {| data := d |};
  Parameter_beQuery p;;
  mret p.

Definition WebService_BodyParameter (self : nat) (name description : string) : M nat :=
  d ← new_ParameterData
        {| Name := name; Description := description; Kind := zero_Kind;
           Required := true; DataType := "" |};
  p ← new_Parameter {| data := d |};
  Parameter_beBody p;;
  mret p.

Definition WebService_Route (self : nat) (builder : nat) : M nat :=
  s ← load_WebService self;
  RouteBuilder_copyDefaults builder (produces s) (consumes s);;
  route ← RouteBuilder_Build builder;
  assign_WebService self (λ s, set_routes (routes s ++ [route]) s);;
  mret self.

Definition WebService_Method (self : nat) (httpMethod : string) : M nat :=
  s ← load_WebService self;
  b ← new_RouteBuilder;
  b ← RouteBuilder_servicePath b (rootPath s);
  RouteBuilder_Method b httpMethod.

Definition WebService_Produces (self : nat) (contentTypes : list string) : M nat :=
  assign_WebService self (set_produces contentTypes);;
  mret self.

Definition WebService_Consumes (self : nat) (accepts : list string) : M nat :=
  assign_WebService self (set_consumes accepts);;
  mret self.

Definition WebService_Routes (self : WebService) : list Route := routes self.

Definition WebService_RootPath (self : WebService) : string := rootPath self.

Definition WebService_PathParameters (self : WebService) : list nat :=
  pathParameters self.

Definition WebService_Filters (self : WebService) : list FilterFunction :=
  filters self.

Definition WebService_Filter (self : nat) (filter : FilterFunction) : M nat :=
  assign_WebService self (λ s, set_filters (filters s ++ [filter]) s);;
  mret self.

Definition WebService_GET (self : nat) (subPath : string) : M nat :=
  s ← load_WebService self;
  b ← new_RouteBuilder;
  b ← RouteBuilder_servicePath b (rootPath s);
  b ← RouteBuilder_Method b "GET";
  RouteBuilder_Path b subPath.

Definition WebService_POST (self : nat) (subPath : string) : M nat :=
  s ← load_WebService self;
  b ← new_RouteBuilder;
  b ← RouteBuilder_servicePath b (rootPath s);
  b ← RouteBuilder_Method b "POST";
  RouteBuilder_Path b subPath.

Definition WebService_PUT (self : nat) (subPath : string) : M nat :=
  s ← load_WebService self;
  b ← new_RouteBuilder;
  b ← RouteBuilder_servicePath b (rootPath s);
  b ← RouteBuilder_Method b "PUT";
  RouteBuilder_Path b subPath.

Definition WebService_DELETE (self : nat) (subPath : string) : M nat :=
  s ← load_WebService self;
  b ← new_RouteBuilder;
  b ← RouteBuilder_servicePath b (rootPath s);
  b ← RouteBuilder_Method b "DELETE";
  RouteBuilder_Path b subPath.

End Model.

(** ** Registration phases *)

Section Phases.
Context `{Collaborators}.

(** The calls [self.Route(b)] for the builders of [bs], in that order. *)
Fixpoint Route_all (self : nat) (bs : list nat) : M nat :=
  match bs with
  | [] => mret self
  | b :: bs' => WebService_Route self b;; Route_all self bs'
  end.

(** The calls [self.Filter(f)] for the filters of [fs], in that order. *)
Fixpoint Filter_all (self : nat) (fs : list FilterFunction) : M nat :=
  match fs with
  | [] => mret self
  | f :: fs' => WebService_Filter self f;; Filter_all self fs'
  end.

(** The complete template of a builder, and a template the compiler accepts. *)
Definition template (b : RouteBuilder) : string :=
  concatPath (rb_rootPath b) (rb_currentPath b).

Definition compiles (t : string) : Prop :=
  ∃ compiled, NewPathExpression t = inl compiled.

(** [m] run in [w] returns the address of a builder that did not exist in
    [w], holding [rb], and changes nothing else. *)
Definition creates_builder (m : M nat) (w : World) (rb : RouteBuilder) : Prop :=
  ∃ b w',
    m w = Returns (b, w') ∧
    builders w !! b = None ∧
    builders w' = <[b := rb]> (builders w) ∧
    services w' = services w ∧
    parameters w' = parameters w ∧
    parameterData w' = parameterData w.

(** [m] run in [w] returns the address of a new parameter whose data is [pd],
    and leaves the services and the builders as they were. *)
Definition creates_parameter (m : M nat) (w : World) (pd : ParameterData) : Prop :=
  ∃ p d w',
    m w = Returns (p, w') ∧
    parameters w !! p = None ∧
    parameterData w !! d = None ∧
    parameters w' = <[p := {| data := d |}]> (parameters w) ∧
    parameterData w' = <[d := pd]> (parameterData w) ∧
    services w' = services w ∧
    builders w' = builders w.

(** The builder that [m] creates in [w] still carries [root] after
    [self.Path(newRoot)], while the service itself has moved to [newRoot]. *)
Definition keeps_root (m : M nat) (self : nat) (w : World)
    (root newRoot : string) : Prop :=
  ∃ b w1 w2 rb s2,
    m w = Returns (b, w1) ∧
    WebService_Path self newRoot w1 = Returns (self, w2) ∧
    builders w2 !! b = Some rb ∧
    rb_rootPath rb = root ∧
    services w2 !! self = Some s2 ∧
    WebService_RootPath s2 = newRoot.

End Phases.

(** ** Registration scripts *)

Section Scripts.
Context `{Collaborators}.

(** The calls [self.Param(p)] for the parameters of [ps], in that order. *)
Fixpoint Param_all (self : nat) (ps : list nat) : M nat :=
  match ps with
  | [] => mret self
  | p :: ps' => WebService_Param self p;; Param_all self ps'
  end.

(** One call of a method of web_service.go that has a pointer receiver, with
    its arguments. *)
Inductive Call :=
| CallPath (root : string)
| CallParam (parameter : nat)
| CallPathParameter (name description : string)
| CallQueryParameter (name description : string)
| CallBodyParameter (name description : string)
| CallRoute (builder : nat)
| CallMethod (httpMethod : string)
| CallProduces (contentTypes : list string)
| CallConsumes (accepts : list string)
| CallFilter (filter : FilterFunction)
| CallGET (subPath : string)
| CallPOST (subPath : string)
| CallPUT (subPath : string)
| CallDELETE (subPath : string).

Definition call (self : nat) (c : Call) : M nat :=
  match c with
  | CallPath root => WebService_Path self root
  | CallParam parameter => WebService_Param self parameter
  | CallPathParameter name description =>
      WebService_PathParameter self name description
  | CallQueryParameter name description =>
      WebService_QueryParameter self name description
  | CallBodyParameter name description =>
      WebService_BodyParameter self name description
  | CallRoute builder => WebService_Route self builder
  | CallMethod httpMethod => WebService_Method self httpMethod
  | CallProduces contentTypes => WebService_Produces self contentTypes
  | CallConsumes accepts => WebService_Consumes self accepts
  | CallFilter filter => WebService_Filter self filter
  | CallGET subPath => WebService_GET self subPath
  | CallPOST subPath => WebService_POST self subPath
  | CallPUT subPath => WebService_PUT self subPath
  | CallDELETE subPath => WebService_DELETE self subPath
  end.

(** A registration script: calls on one service, one after the other, the
    values they return dropped. *)
Fixpoint script (self : nat) (cs : list Call) : M unit :=
  match cs with
  | [] => mret ()
  | c :: cs' => call self c;; script self cs'
  end.

(** The calls that neither compile a template nor take a builder. *)
Definition plain (c : Call) : bool :=
  match c with
  | CallPath _ | CallRoute _ => false
  | _ => true
  end.

(** The calls whose body reads or writes a field of the receiver. *)
Definition needs_receiver (c : Call) : bool :=
  match c with
  | CallPathParameter _ _ | CallQueryParameter _ _ | CallBodyParameter _ _ => false
  | _ => true
  end.

(** The calls that set the root path or a default list. *)
Definition setter (c : Call) : bool :=
  match c with
  | CallPath _ | CallProduces _ | CallConsumes _ => true
  | _ => false
  end.

(** [s'] has the root path, cached expression and default lists of [s]. *)
Definition same_settings (s s' : WebService) : Prop :=
  rootPath s' = rootPath s ∧
  pathExpression s' = pathExpression s ∧
  produces s' = produces s ∧
  consumes s' = consumes s.

(** The builder a factory call seeds on a service [s]. *)
Definition seeded (s : WebService) (c : Call) : option RouteBuilder :=
  let seed verb subPath :=
    Some {| rb_rootPath := rootPath s; rb_currentPath := subPath;
            rb_httpMethod := verb; rb_produces := []; rb_consumes := [] |} in
  match c with
  | CallMethod httpMethod => seed httpMethod ""
  | CallGET subPath => seed "GET" subPath
  | CallPOST subPath => seed "POST" subPath
  | CallPUT subPath => seed "PUT" subPath
  | CallDELETE subPath => seed "DELETE" subPath
  | _ => None
  end.

(** The cached expression of a service, when there is one, is the
    compilation of its root path. *)
Definition cache_valid (s : WebService) : Prop :=
  ∀ compiled, pathExpression s = Some compiled →
    NewPathExpression (rootPath s) = inl compiled.

(** The three registration lists of [s'] start with those of [s]. *)
Definition grows (s s' : WebService) : Prop :=
  routes s `prefix_of` routes s' ∧
  filters s `prefix_of` filters s' ∧
  pathParameters s `prefix_of` pathParameters s'.

(** What a call or a script may do to the service it runs on, and to the
    others. *)
Definition preserved (self : nat) (w w' : World) (s : WebService) : Prop :=
  ∃ s',
    services w' !! self = Some s' ∧
    grows s s' ∧
    (cache_valid s → cache_valid s') ∧
    (∀ other, other ≠ self → services w' !! other = services w !! other).

(** [m] makes a builder in [w] and [self.Route] registers it at once: the
    service, [s] before, ends with [r] as its last route. *)
Definition registers (m : M nat) (self : nat) (w : World) (s : WebService)
    (r : Route) : Prop :=
  ∃ b w1 w2 s2,
    m w = Returns (b, w1) ∧
    builders w !! b = None ∧
    WebService_Route self b w1 = Returns (self, w2) ∧
    services w2 !! self = Some s2 ∧
    s2 = set_routes (routes s ++ [r]) s.

(** [m] makes a builder in [w], the service moves to [newRoot], and
    [self.Route] then registers the builder: the last route is [r] and the
    service's root path is [newRoot]. *)
Definition registers_after_Path (m : M nat) (self : nat) (w : World)
    (s : WebService) (newRoot : string) (r : Route) : Prop :=
  ∃ b w1 w2 w3 s3,
    m w = Returns (b, w1) ∧
    WebService_Path self newRoot w1 = Returns (self, w2) ∧
    WebService_Route self b w2 = Returns (self, w3) ∧
    services w3 !! self = Some s3 ∧
    WebService_RootPath s3 = newRoot ∧
    WebService_Routes s3 = WebService_Routes s ++ [r].

(** [m] makes a parameter in [w] and [self.Param] documents it at once: the
    service, [s] before, ends with the new parameter, whose data is [pd]. *)
Definition documents (m : M nat) (self : nat) (w : World) (s : WebService)
    (pd : ParameterData) : Prop :=
  ∃ p d w1 w2 s2,
    m w = Returns (p, w1) ∧
    WebService_Param self p w1 = Returns (self, w2) ∧
    services w2 !! self = Some s2 ∧
    s2 = set_pathParameters (pathParameters s ++ [p]) s ∧
    parameters w2 !! p = Some {| data := d |} ∧
    parameterData w2 !! d = Some pd.

End Scripts.

(** ** A concrete instance of the collaborators *)

(** Braces of a template are balanced and not nested below zero. *)
Fixpoint balanced (t : string) (depth : nat) : bool :=
  match t with
  | EmptyString => Nat.eqb depth 0
  | String c t' =>
      if Ascii.eqb c "{"%char then balanced t' (S depth)
      else if Ascii.eqb c "}"%char then
        match depth with
        | 0 => false
        | S d => balanced t' d
        end
      else balanced t' depth
  end.

(** A small compiler of templates: it anchors a template with balanced
    braces and rejects any other. *)
Definition sample : Collaborators :=
  {| PathExpression := string;
     NewPathExpression t :=
       if balanced t 0 then inl ("^" +:+ t +:+ "$") else inr "unbalanced braces";
     concatPath root sub := root +:+ sub;
     FilterFunction := nat |}.

Definition sample_service : WebService (H := sample) :=
  {| rootPath := "/users"; pathExpression := Some ("^/users$" : @PathExpression sample);
     routes := [];
     produces := ["application/json"]; consumes := ["application/xml"];
     pathParameters := []; filters := [7 : @FilterFunction sample] |}.

Definition sample_builder : RouteBuilder :=
  {| rb_rootPath := "/users"; rb_currentPath := "/{id}"; rb_httpMethod := "GET";
     rb_produces := []; rb_consumes := ["text/plain"] |}.

Definition sample_world : World (H := sample) :=
  {| services := {[ 3 := sample_service ]};
     builders := {[ 5 := sample_builder ]};
     parameters := ∅; parameterData := ∅ |}.

(** A registration script on the sample service, and the world it leaves. *)
Definition sample_script : list (Call (H := sample)) :=
  [ CallPath "/books"; CallGET "/{id}"; CallRoute 5; CallFilter (9 : @FilterFunction sample);
    CallProduces ["text/html"]; CallPathParameter "id" "identifier";
    CallParam 0; CallRoute 5 ].

Definition sample_script_world : World (H := sample) :=
  match script 3 sample_script sample_world with
  | Returns (_, w') => w'
  | _ => sample_world
  end.

(** A script that sets neither the root path nor a default list. *)
Definition sample_quiet_script : list (Call (H := sample)) :=
  [ CallGET "/{id}"; CallRoute 5; CallFilter (9 : @FilterFunction sample);
    CallPathParameter "id" "identifier"; CallParam 0; CallMethod "PATCH" ].

Definition sample_quiet_world : World (H := sample) :=
  match script 3 sample_quiet_script sample_world with
  | Returns (_, w') => w'
  | _ => sample_world
  end.

(** * Properties *)

Section Properties.
Context `{Collaborators}.
Implicit Types (w : World) (s : WebService) (rb : RouteBuilder).

Lemma load_WebService_at self w s :
  services w !! self = Some s → load_WebService self w = Returns (s, w).
Proof. intros Hs. unfold load_WebService. by rewrite Hs. Qed.

Lemma assign_WebService_at self f w s :
  services w !! self = Some s →
  assign_WebService self f w =
    Returns ((), set_services (<[self := f s]> (services w)) w).
Proof. intros Hs. unfold assign_WebService. by rewrite Hs. Qed.

Lemma assign_RouteBuilder_at b f w rb :
  builders w !! b = Some rb →
  assign_RouteBuilder b f w =
    Returns ((), set_builders (<[b := f rb]> (builders w)) w).
Proof. intros Hb. unfold assign_RouteBuilder. by rewrite Hb. Qed.

Lemma load_RouteBuilder_at b w rb :
  builders w !! b = Some rb → load_RouteBuilder b w = Returns (rb, w).
Proof. intros Hb. unfold load_RouteBuilder. by rewrite Hb. Qed.

Lemma bind_Returns {A B : Type} (m : M A) (f : A → M B) w a w' :
  m w = Returns (a, w') → (m ≫= f) w = f a w'.
Proof. intros Hm. unfold mbind, M_bind. by rewrite Hm. Qed.

Lemma bind_Fatal {A B : Type} (m : M A) (f : A → M B) w msg :
  m w = Fatal msg → (m ≫= f) w = Fatal msg.
Proof. intros Hm. unfold mbind, M_bind. by rewrite Hm. Qed.

Lemma copyDefaults_paths P C rb :
  rb_rootPath (copyDefaults_fields P C rb) = rb_rootPath rb ∧
  rb_currentPath (copyDefaults_fields P C rb) = rb_currentPath rb ∧
  rb_httpMethod (copyDefaults_fields P C rb) = rb_httpMethod rb.
Proof.
  unfold copyDefaults_fields.
  destruct rb as [r c m [|p ps] [|q qs]]; cbn; done.
Qed.

Lemma copyDefaults_template P C rb :
  template (copyDefaults_fields P C rb) = template rb.
Proof.
  unfold template. destruct (copyDefaults_paths P C rb) as (-> & -> & _). done.
Qed.

Lemma copyDefaults_idem P C rb :
  copyDefaults_fields P C (copyDefaults_fields P C rb) = copyDefaults_fields P C rb.
Proof.
  unfold copyDefaults_fields.
  destruct rb as [r c m [|p ps] [|q qs]], P as [|x P], C as [|y C]; cbn; done.
Qed.

Lemma Build_fields_compiles rb :
  compiles (template rb) → ∃ r, Build_fields rb = inl r.
Proof.
  intros [compiled Hc]. unfold Build_fields. fold (template rb).
  rewrite Hc. eauto.
Qed.

Lemma Build_fields_inl rb r :
  Build_fields rb = inl r →
  Route_Method r = rb_httpMethod rb ∧ Route_Path r = template rb ∧
  NewPathExpression (template rb) = inl (Route_pathExpr r) ∧
  Route_Produces r = rb_produces rb ∧ Route_Consumes r = rb_consumes rb.
Proof.
  unfold Build_fields. fold (template rb).
  destruct (NewPathExpression (template rb)) as [c|e] eqn:Hc; [|done].
  intros [= <-]. cbn. done.
Qed.

(** One call of [Route] whose builder compiles: the builder receives the
    defaults, the service the built route at the end of its list. *)
Lemma Route_step self b w s rb r :
  services w !! self = Some s →
  builders w !! b = Some rb →
  Build_fields (copyDefaults_fields (produces s) (consumes s) rb) = inl r →
  WebService_Route self b w =
    Returns (self,
      set_services (<[self := set_routes (routes s ++ [r]) s]> (services w))
        (set_builders
           (<[b := copyDefaults_fields (produces s) (consumes s) rb]> (builders w))
           w)).
Proof.
  intros Hs Hb Hr. unfold WebService_Route.
  erewrite bind_Returns by (by apply load_WebService_at).
  unfold RouteBuilder_copyDefaults.
  erewrite bind_Returns by (by apply assign_RouteBuilder_at).
  unfold RouteBuilder_Build.
  erewrite bind_Returns.
  2:{ erewrite bind_Returns.
      2:{ apply load_RouteBuilder_at. cbn. apply lookup_insert_eq. }
      rewrite Hr. reflexivity. }
  erewrite bind_Returns by (by apply assign_WebService_at).
  reflexivity.
Qed.

(** One call of [Route] whose builder does not compile: the process ends
    before the service is written to. *)
Lemma Route_aborts self b w s rb msg :
  services w !! self = Some s →
  builders w !! b = Some rb →
  Build_fields (copyDefaults_fields (produces s) (consumes s) rb) = inr msg →
  WebService_Route self b w = Fatal msg.
Proof.
  intros Hs Hb Hr. unfold WebService_Route.
  erewrite bind_Returns by (by apply load_WebService_at).
  unfold RouteBuilder_copyDefaults.
  erewrite bind_Returns by (by apply assign_RouteBuilder_at).
  unfold RouteBuilder_Build.
  erewrite bind_Fatal; [reflexivity|].
  erewrite bind_Returns.
  2:{ apply load_RouteBuilder_at. cbn. apply lookup_insert_eq. }
  rewrite Hr. reflexivity.
Qed.

(** A run of [Route_all] from a world whose builders are those of [orig],
    some of them already holding the defaults [P] and [C]. *)
Lemma Route_all_from self (orig : gmap nat RouteBuilder) P C bs :
  ∀ w s,
    services w !! self = Some s →
    produces s = P → consumes s = C →
    (∀ b rb, orig !! b = Some rb →
       ∃ rb', builders w !! b = Some rb' ∧
              copyDefaults_fields P C rb' = copyDefaults_fields P C rb) →
    Forall (λ b, ∃ rb, orig !! b = Some rb ∧ compiles (template rb)) bs →
    ∃ w' s' rs,
      Route_all self bs w = Returns (self, w') ∧
      services w' !! self = Some s' ∧
      routes s' = routes s ++ rs ∧
      Forall2 (λ b r, ∃ rb, orig !! b = Some rb ∧
                 Build_fields (copyDefaults_fields P C rb) = inl r) bs rs.
Proof.
  induction bs as [|b bs IH]; intros w s Hs HP HC Hinv Hall.
  - exists w, s, []. cbn. rewrite app_nil_r. repeat split; [done|constructor].
  - apply Forall_cons in Hall as [(rb & Horig & Hcomp) Hall'].
    destruct (Hinv b rb Horig) as (rb' & Hb' & Heq).
    destruct (Build_fields_compiles (copyDefaults_fields P C rb)) as [r Hr];
      [by rewrite copyDefaults_template|].
    pose proof (Route_step self b w s rb' r Hs Hb') as Hstep.
    rewrite HP, HC, Heq in Hstep. specialize (Hstep Hr).
    match type of Hstep with
    | _ = Returns (_, ?w1) =>
        destruct (IH w1 (set_routes (routes s ++ [r]) s))
          as (w' & s' & rs & Hrun & Hs' & Hroutes & Hrs)
    end.
    + cbn. apply lookup_insert_eq.
    + exact HP.
    + exact HC.
    + intros b0 rb0 Hb0. cbn.
      destruct (decide (b0 = b)) as [->|Hne].
      * rewrite lookup_insert_eq. eexists; split; [done|].
        rewrite copyDefaults_idem. congruence.
      * rewrite lookup_insert_ne by done. by apply Hinv.
    + exact Hall'.
    + exists w', s', (r :: rs). split; [|split; [done|split]].
      * cbn [Route_all]. erewrite bind_Returns by exact Hstep. exact Hrun.
      * rewrite Hroutes. cbn. by rewrite <- app_assoc.
      * constructor; [eauto|done].
Qed.

Lemma Filter_step self f w s :
  services w !! self = Some s →
  WebService_Filter self f w =
    Returns (self,
      set_services (<[self := set_filters (filters s ++ [f]) s]> (services w)) w).
Proof.
  intros Hs. unfold WebService_Filter.
  erewrite bind_Returns by (by apply assign_WebService_at). reflexivity.
Qed.

(** C1.  A sequence of [Route] calls on a service, each with a builder whose
    template compiles, returns and leaves [Routes()] equal to the former list
    followed by exactly one route per call, in the order of the calls; the
    route of a call is the one built from its builder after the service's
    defaults were copied onto it.  A single call is the sequence of length
    one. *)
Theorem Route_appends_in_order (self : nat) (bs : list nat) w s :
  services w !! self = Some s →
  Forall (λ b, ∃ rb, builders w !! b = Some rb ∧ compiles (template rb)) bs →
  ∃ w' s' rs,
    Route_all self bs w = Returns (self, w') ∧
    services w' !! self = Some s' ∧
    WebService_Routes s' = WebService_Routes s ++ rs ∧
    length rs = length bs ∧
    Forall2 (λ b r, ∃ rb, builders w !! b = Some rb ∧
               Build_fields (copyDefaults_fields (produces s) (consumes s) rb) = inl r)
            bs rs.
Proof.
  intros Hs Hall.
  destruct (Route_all_from self (builders w) (produces s) (consumes s) bs w s)
    as (w' & s' & rs & Hrun & Hs' & Hroutes & Hrs); [done..| |done|].
  - intros b rb Hb. by exists rb.
  - exists w', s', rs. repeat split; [done..| |done].
    symmetry. by eapply Forall2_length.
Qed.

(** C6.  A sequence of [Filter] calls on a service returns and leaves
    [Filters()] equal to the former list followed by the registered filters,
    in the order of the calls; each call appends its filter at the end. *)
Theorem Filter_appends_in_order (self : nat) (fs : list FilterFunction) w s :
  services w !! self = Some s →
  ∃ w' s',
    Filter_all self fs w = Returns (self, w') ∧
    services w' !! self = Some s' ∧
    WebService_Filters s' = WebService_Filters s ++ fs.
Proof.
  revert w s. induction fs as [|f fs IH]; intros w s Hs.
  - exists w, s. cbn. by rewrite app_nil_r.
  - pose proof (Filter_step self f w s Hs) as Hstep.
    match type of Hstep with
    | _ = Returns (_, ?w1) =>
        destruct (IH w1 (set_filters (filters s ++ [f]) s))
          as (w' & s' & Hrun & Hs' & Hfs)
    end.
    { cbn. apply lookup_insert_eq. }
    exists w', s'. split; [|split; [done|]].
    + cbn [Filter_all]. erewrite bind_Returns by exact Hstep. exact Hrun.
    + rewrite Hfs. cbn. unfold WebService_Filters. by rewrite <- app_assoc.
Qed.

Lemma Path_step self root w s compiled :
  services w !! self = Some s →
  NewPathExpression root = inl compiled →
  WebService_Path self root w =
    Returns (self,
      set_services
        (<[self := set_pathExpression (Some compiled) (set_rootPath root s)]>
           (services w)) w).
Proof.
  intros Hs Hc. unfold WebService_Path. rewrite Hc.
  erewrite bind_Returns by (by apply assign_WebService_at).
  erewrite bind_Returns.
  2:{ apply assign_WebService_at. cbn. apply lookup_insert_eq. }
  unfold mret, M_ret. cbn. by rewrite insert_insert_eq.
Qed.

Lemma Path_aborts self root w s err :
  services w !! self = Some s →
  NewPathExpression root = inr err →
  WebService_Path self root w =
    Fatal ("[restful] Invalid path:" +:+ root +:+ " because:" +:+ err).
Proof.
  intros Hs He. unfold WebService_Path. rewrite He.
  erewrite bind_Returns by (by apply assign_WebService_at). reflexivity.
Qed.

(** C3.  [Path(root)] on a service: when [root] compiles, the call returns
    the receiver with [rootPath] set to [root] and [pathExpression] to the
    compiled expression, so [RootPath()] is [root] and [RootExpression()] the
    compilation; when [root] does not compile, the call ends the process
    through [log.Fatalf] and no service with the malformed template is
    left to the caller. *)
Theorem Path_sets_root_or_aborts (self : nat) (root : string) w s :
  services w !! self = Some s →
  (∀ compiled, NewPathExpression root = inl compiled →
     ∃ w' s',
       WebService_Path self root w = Returns (self, w') ∧
       s' = set_pathExpression (Some compiled) (set_rootPath root s) ∧
       w' = set_services (<[self := s']> (services w)) w ∧
       services w' !! self = Some s' ∧
       WebService_RootPath s' = root ∧
       WebService_RootExpression s' = Some compiled) ∧
  (∀ err, NewPathExpression root = inr err →
     ∃ msg, WebService_Path self root w = Fatal msg).
Proof.
  intros Hs. split.
  - intros compiled Hc. eexists _, _.
    split; [by apply Path_step|]. split; [reflexivity|].
    repeat split. cbn. apply lookup_insert_eq.
  - intros err He. eexists. by eapply Path_aborts.
Qed.

(** C7.  [Route(b)] changes only the [routes] field of its service:
    [rootPath], [pathExpression], [produces], [consumes], [pathParameters] and
    [filters] are the same before and after the call, and no other service is
    touched. *)
Theorem Route_changes_only_routes (self b : nat) w s rb :
  services w !! self = Some s →
  builders w !! b = Some rb →
  compiles (template rb) →
  ∃ w' s',
    WebService_Route self b w = Returns (self, w') ∧
    services w' !! self = Some s' ∧
    rootPath s' = rootPath s ∧
    pathExpression s' = pathExpression s ∧
    produces s' = produces s ∧
    consumes s' = consumes s ∧
    pathParameters s' = pathParameters s ∧
    filters s' = filters s ∧
    (∀ other, other ≠ self → services w' !! other = services w !! other).
Proof.
  intros Hs Hb Hc.
  destruct (Build_fields_compiles (copyDefaults_fields (produces s) (consumes s) rb))
    as [r Hr]; [by rewrite copyDefaults_template|].
  eexists _, _. split; [by apply Route_step|].
  cbn. split; [apply lookup_insert_eq|].
  repeat split. intros other Hne. by apply lookup_insert_ne.
Qed.

Lemma copyDefaults_lists P C rb :
  rb_produces (copyDefaults_fields P C rb) =
    match rb_produces rb with [] => P | _ :: _ => rb_produces rb end ∧
  rb_consumes (copyDefaults_fields P C rb) =
    match rb_consumes rb with [] => C | _ :: _ => rb_consumes rb end.
Proof.
  unfold copyDefaults_fields.
  destruct rb as [r c m [|p ps] [|q qs]]; cbn; done.
Qed.

Lemma Produces_step self ts w s :
  services w !! self = Some s →
  WebService_Produces self ts w =
    Returns (self, set_services (<[self := set_produces ts s]> (services w)) w).
Proof.
  intros Hs. unfold WebService_Produces.
  erewrite bind_Returns by (by apply assign_WebService_at). reflexivity.
Qed.

Lemma Consumes_step self ts w s :
  services w !! self = Some s →
  WebService_Consumes self ts w =
    Returns (self, set_services (<[self := set_consumes ts s]> (services w)) w).
Proof.
  intros Hs. unfold WebService_Consumes.
  erewrite bind_Returns by (by apply assign_WebService_at). reflexivity.
Qed.

(** C2.  [Route(b)] passes the service's [produces] and [consumes] to
    [copyDefaults] before [Build]: after the call the builder holds the
    defaults it lacked, and the route appended is built from that builder.  A
    list the builder left unset is inherited from the service, a list it set
    is kept, and a later [Produces] or [Consumes] on the service does not
    reach the route already built. *)
Theorem Route_copies_defaults (self b : nat) w s rb :
  services w !! self = Some s →
  builders w !! b = Some rb →
  compiles (template rb) →
  ∃ w' s' r,
    WebService_Route self b w = Returns (self, w') ∧
    builders w' !! b = Some (copyDefaults_fields (produces s) (consumes s) rb) ∧
    Build_fields (copyDefaults_fields (produces s) (consumes s) rb) = inl r ∧
    services w' !! self = Some s' ∧
    WebService_Routes s' = WebService_Routes s ++ [r] ∧
    (rb_produces rb = [] → Route_Produces r = produces s) ∧
    (rb_consumes rb = [] → Route_Consumes r = consumes s) ∧
    (rb_produces rb ≠ [] → Route_Produces r = rb_produces rb) ∧
    (rb_consumes rb ≠ [] → Route_Consumes r = rb_consumes rb) ∧
    (∀ ts, ∃ w'' s'',
       WebService_Produces self ts w' = Returns (self, w'') ∧
       services w'' !! self = Some s'' ∧
       WebService_Routes s'' = WebService_Routes s ++ [r]) ∧
    (∀ ts, ∃ w'' s'',
       WebService_Consumes self ts w' = Returns (self, w'') ∧
       services w'' !! self = Some s'' ∧
       WebService_Routes s'' = WebService_Routes s ++ [r]).
Proof.
  intros Hs Hb Hc.
  destruct (Build_fields_compiles (copyDefaults_fields (produces s) (consumes s) rb))
    as [r Hr]; [by rewrite copyDefaults_template|].
  destruct (Build_fields_inl _ _ Hr) as (_ & _ & _ & Hp & Hq).
  destruct (copyDefaults_lists (produces s) (consumes s) rb) as [Hp' Hq'].
  rewrite Hp' in Hp. rewrite Hq' in Hq.
  eexists _, _, r. split; [by apply Route_step|].
  assert (Hs' : ∀ other : gmap nat WebService,
             <[self := set_routes (routes s ++ [r]) s]> other !! self
             = Some (set_routes (routes s ++ [r]) s))
    by (intros; apply lookup_insert_eq).
  cbn. split; [apply lookup_insert_eq|]. split; [done|].
  split; [apply Hs'|]. split; [done|].
  split; [by intros Hnil; rewrite Hnil in Hp|].
  split; [by intros Hnil; rewrite Hnil in Hq|].
  split; [by destruct (rb_produces rb)|].
  split; [by destruct (rb_consumes rb)|].
  split; intros ts; eexists _, _.
  - split; [eapply Produces_step; cbn; apply Hs'|].
    cbn. split; [apply lookup_insert_eq|done].
  - split; [eapply Consumes_step; cbn; apply Hs'|].
    cbn. split; [apply lookup_insert_eq|done].
Qed.

(** C8.  [Produces] and [Consumes] replace the service's list: after a first
    call with [earlier] and a second with [later] the list is [later], and the
    service is as if only the second call had been made. *)
Theorem Produces_Consumes_replace (self : nat) (earlier later : list string) w s :
  services w !! self = Some s →
  (∃ w1 w2 s2,
     WebService_Produces self earlier w = Returns (self, w1) ∧
     WebService_Produces self later w1 = Returns (self, w2) ∧
     WebService_Produces self later w = Returns (self, w2) ∧
     services w2 !! self = Some s2 ∧
     produces s2 = later ∧
     s2 = set_produces later s) ∧
  (∃ w1 w2 s2,
     WebService_Consumes self earlier w = Returns (self, w1) ∧
     WebService_Consumes self later w1 = Returns (self, w2) ∧
     WebService_Consumes self later w = Returns (self, w2) ∧
     services w2 !! self = Some s2 ∧
     consumes s2 = later ∧
     s2 = set_consumes later s).
Proof.
  intros Hs. split; eexists _, _, _.
  - split; [by apply Produces_step|].
    split; [eapply Produces_step; cbn; apply lookup_insert_eq|].
    split; [rewrite (Produces_step _ _ _ _ Hs); cbn; by rewrite insert_insert_eq|].
    cbn. split; [apply lookup_insert_eq|done].
  - split; [by apply Consumes_step|].
    split; [eapply Consumes_step; cbn; apply lookup_insert_eq|].
    split; [rewrite (Consumes_step _ _ _ _ Hs); cbn; by rewrite insert_insert_eq|].
    cbn. split; [apply lookup_insert_eq|done].
Qed.

Lemma fresh_builder_free w : builders w !! fresh (dom (builders w)) = None.
Proof. apply not_elem_of_dom, is_fresh. Qed.

(** Unfolds a straight-line computation down to store lookups. *)
Ltac unfold_calls :=
  unfold RouteBuilder_servicePath, RouteBuilder_Method, RouteBuilder_Path,
    Parameter_bePath, Parameter_beQuery, Parameter_beBody, Parameter_be,
    new_RouteBuilder, new_Parameter, new_ParameterData, load_WebService,
    load_Parameter, assign_RouteBuilder, assign_ParameterData,
    mbind, M_bind, mret, M_ret.

Ltac step_store :=
  cbn [services builders parameters parameterData set_services set_builders
       set_parameters set_parameterData data];
  rewrite ?lookup_insert_eq, ?insert_insert_eq.

Lemma Method_creates self verb w s :
  services w !! self = Some s →
  creates_builder (WebService_Method self verb) w
    {| rb_rootPath := rootPath s; rb_currentPath := ""; rb_httpMethod := verb;
       rb_produces := []; rb_consumes := [] |}.
Proof.
  intros Hs. eexists (fresh (dom (builders w))), _. split.
  - unfold WebService_Method. unfold_calls. rewrite Hs.
    repeat step_store. reflexivity.
  - split; [apply fresh_builder_free|done].
Qed.

Ltac prove_creates Hs unfolding :=
  eexists (fresh (dom (builders _))), _; split;
  [ unfolding; unfold_calls; rewrite Hs; repeat step_store; reflexivity
  | split; [apply fresh_builder_free|done] ].

Lemma GET_creates self subPath w s :
  services w !! self = Some s →
  creates_builder (WebService_GET self subPath) w
    {| rb_rootPath := rootPath s; rb_currentPath := subPath;
       rb_httpMethod := "GET"; rb_produces := []; rb_consumes := [] |}.
Proof. intros Hs. prove_creates Hs ltac:(unfold WebService_GET). Qed.

Lemma POST_creates self subPath w s :
  services w !! self = Some s →
  creates_builder (WebService_POST self subPath) w
    {| rb_rootPath := rootPath s; rb_currentPath := subPath;
       rb_httpMethod := "POST"; rb_produces := []; rb_consumes := [] |}.
Proof. intros Hs. prove_creates Hs ltac:(unfold WebService_POST). Qed.

Lemma PUT_creates self subPath w s :
  services w !! self = Some s →
  creates_builder (WebService_PUT self subPath) w
    {| rb_rootPath := rootPath s; rb_currentPath := subPath;
       rb_httpMethod := "PUT"; rb_produces := []; rb_consumes := [] |}.
Proof. intros Hs. prove_creates Hs ltac:(unfold WebService_PUT). Qed.

Lemma DELETE_creates self subPath w s :
  services w !! self = Some s →
  creates_builder (WebService_DELETE self subPath) w
    {| rb_rootPath := rootPath s; rb_currentPath := subPath;
       rb_httpMethod := "DELETE"; rb_produces := []; rb_consumes := [] |}.
Proof. intros Hs. prove_creates Hs ltac:(unfold WebService_DELETE). Qed.

(** C5.  [Method(verb)], [GET(p)], [POST(p)], [PUT(p)] and [DELETE(p)] each
    return the address of a builder that did not exist before, seeded with
    the HTTP method, the sub-path (empty for [Method]) and the service's
    current root path; the services, and every other object, are left as
    they were. *)
Theorem factories_seed_fresh_builder (self : nat) (verb subPath : string) w s :
  services w !! self = Some s →
  creates_builder (WebService_Method self verb) w
    {| rb_rootPath := WebService_RootPath s; rb_currentPath := "";
       rb_httpMethod := verb; rb_produces := []; rb_consumes := [] |} ∧
  creates_builder (WebService_GET self subPath) w
    {| rb_rootPath := WebService_RootPath s; rb_currentPath := subPath;
       rb_httpMethod := "GET"; rb_produces := []; rb_consumes := [] |} ∧
  creates_builder (WebService_POST self subPath) w
    {| rb_rootPath := WebService_RootPath s; rb_currentPath := subPath;
       rb_httpMethod := "POST"; rb_produces := []; rb_consumes := [] |} ∧
  creates_builder (WebService_PUT self subPath) w
    {| rb_rootPath := WebService_RootPath s; rb_currentPath := subPath;
       rb_httpMethod := "PUT"; rb_produces := []; rb_consumes := [] |} ∧
  creates_builder (WebService_DELETE self subPath) w
    {| rb_rootPath := WebService_RootPath s; rb_currentPath := subPath;
       rb_httpMethod := "DELETE"; rb_produces := []; rb_consumes := [] |}.
Proof.
  intros Hs. unfold WebService_RootPath.
  split; [by apply Method_creates|].
  split; [by apply GET_creates|].
  split; [by apply POST_creates|].
  split; [by apply PUT_creates|by apply DELETE_creates].
Qed.

(** A builder just created outlives a later [Path] on its service. *)
Lemma creates_keeps_root (m : M nat) self w s rb newRoot compiled :
  services w !! self = Some s →
  NewPathExpression newRoot = inl compiled →
  creates_builder m w rb →
  keeps_root m self w (rb_rootPath rb) newRoot.
Proof.
  intros Hs Hc (b & w1 & Hm & _ & Hb1 & Hs1 & _).
  assert (Hs1' : services w1 !! self = Some s) by (by rewrite Hs1).
  eexists b, w1, _, rb, _. split; [done|].
  split; [by eapply Path_step|].
  cbn. rewrite Hb1. rewrite !lookup_insert_eq. done.
Qed.

(** C10.  A builder made by [Method], [GET], [POST], [PUT] or [DELETE] holds
    the root path the service had at that moment: after a later
    [Path(newRoot)] on the service the builder still carries the old root
    path while [RootPath()] of the service is [newRoot]. *)
Theorem builder_keeps_root_of_creation (self : nat) (verb subPath newRoot : string)
    w s compiled :
  services w !! self = Some s →
  NewPathExpression newRoot = inl compiled →
  keeps_root (WebService_Method self verb) self w (WebService_RootPath s) newRoot ∧
  keeps_root (WebService_GET self subPath) self w (WebService_RootPath s) newRoot ∧
  keeps_root (WebService_POST self subPath) self w (WebService_RootPath s) newRoot ∧
  keeps_root (WebService_PUT self subPath) self w (WebService_RootPath s) newRoot ∧
  keeps_root (WebService_DELETE self subPath) self w (WebService_RootPath s) newRoot.
Proof.
  intros Hs Hc. unfold WebService_RootPath.
  pose proof (creates_keeps_root _ self w s _ newRoot compiled Hs Hc
                (Method_creates self verb w s Hs)) as HM.
  pose proof (creates_keeps_root _ self w s _ newRoot compiled Hs Hc
                (GET_creates self subPath w s Hs)) as HG.
  pose proof (creates_keeps_root _ self w s _ newRoot compiled Hs Hc
                (POST_creates self subPath w s Hs)) as HP.
  pose proof (creates_keeps_root _ self w s _ newRoot compiled Hs Hc
                (PUT_creates self subPath w s Hs)) as HU.
  pose proof (creates_keeps_root _ self w s _ newRoot compiled Hs Hc
                (DELETE_creates self subPath w s Hs)) as HD.
  done.
Qed.

Lemma fresh_parameter_free w : parameters w !! fresh (dom (parameters w)) = None.
Proof. apply not_elem_of_dom, is_fresh. Qed.

Lemma fresh_parameterData_free w :
  parameterData w !! fresh (dom (parameterData w)) = None.
Proof. apply not_elem_of_dom, is_fresh. Qed.

Ltac prove_parameter unfolding :=
  eexists (fresh (dom (parameters _))), (fresh (dom (parameterData _))), _;
  split;
  [ unfolding; unfold_calls; repeat step_store; reflexivity
  | split; [apply fresh_parameter_free|];
    split; [apply fresh_parameterData_free|done] ].

(** C9.  [PathParameter] and [BodyParameter] return a new parameter that is
    required, of kind Path and Body respectively; [QueryParameter] returns one
    that is not required, of kind Query.  Name and description are the
    arguments, and no service or builder is modified. *)
Theorem parameter_factories (self : nat) (name description : string) w :
  creates_parameter (WebService_PathParameter self name description) w
    {| Name := name; Description := description; Kind := KindPath;
       Required := true; DataType := "" |} ∧
  creates_parameter (WebService_BodyParameter self name description) w
    {| Name := name; Description := description; Kind := KindBody;
       Required := true; DataType := "" |} ∧
  creates_parameter (WebService_QueryParameter self name description) w
    {| Name := name; Description := description; Kind := KindQuery;
       Required := false; DataType := "" |}.
Proof.
  split; [|split].
  - prove_parameter ltac:(unfold WebService_PathParameter).
  - prove_parameter ltac:(unfold WebService_BodyParameter).
  - prove_parameter ltac:(unfold WebService_QueryParameter).
Qed.

(** C4.  The service that [new(WebService)] allocates is a reachable value
    whose [RootPath()] is the empty string and whose [RootExpression()] is
    nil: nothing has set the default root path that the comment of
    [RootPath] announces. *)
Theorem new_WebService_has_empty_root w :
  ∃ p w' s,
    new_WebService w = Returns (p, w') ∧
    services w !! p = None ∧
    services w' !! p = Some s ∧
    WebService_RootPath s = "" ∧
    WebService_RootExpression s = None.
Proof.
  eexists (fresh (dom (services w))), _, zero_WebService.
  split; [reflexivity|].
  split; [apply not_elem_of_dom, is_fresh|].
  cbn. split; [apply lookup_insert_eq|done].
Qed.

End Properties.

(** * The properties at the sample instance *)

Lemma sample_service_at : services sample_world !! 3 = Some sample_service.
Proof. reflexivity. Qed.

Lemma sample_builder_at : builders sample_world !! 5 = Some sample_builder.
Proof. reflexivity. Qed.

Lemma sample_builder_compiles :
  compiles (H := sample) (template (H := sample) sample_builder).
Proof. eexists. reflexivity. Qed.

Example sample_Route_run :
  match WebService_Route (H := sample) 3 5 sample_world with
  | Returns (p, w') =>
      p = 3 ∧
      (WebService_Routes <$> services w' !! 3) =
        Some [ {| Route_Method := "GET"; Route_Path := "/users/{id}";
                  Route_pathExpr := "^/users/{id}$" : @PathExpression sample;
                  Route_Produces := ["application/json"];
                  Route_Consumes := ["text/plain"] |} ]
  | _ => False
  end.
Proof. vm_compute. split; reflexivity. Qed.

Example sample_Path_aborts :
  WebService_Path (H := sample) 3 "/users/{id" sample_world =
    Fatal "[restful] Invalid path:/users/{id because:unbalanced braces".
Proof. reflexivity. Qed.

Example sample_Route_nil_builder :
  WebService_Route (H := sample) 3 0 sample_world = Panics.
Proof. reflexivity. Qed.

Lemma Route_appends_in_order_witness :
  ∃ w' s' rs,
    Route_all (H := sample) 3 [5; 5] sample_world = Returns (3, w') ∧
    services w' !! 3 = Some s' ∧
    WebService_Routes s' = WebService_Routes sample_service ++ rs ∧
    length rs = length [5; 5] ∧
    Forall2 (λ b r, ∃ rb, builders sample_world !! b = Some rb ∧
               Build_fields
                 (copyDefaults_fields (produces sample_service)
                    (consumes sample_service) rb) = inl r)
            [5; 5] rs.
Proof.
  apply (Route_appends_in_order (H := sample) 3 [5; 5] sample_world sample_service).
  - reflexivity.
  - repeat constructor;
      (exists sample_builder; split; [reflexivity | eexists; reflexivity]).
Defined.

Lemma Route_copies_defaults_witness :
  ∃ w' s' r,
    WebService_Route (H := sample) 3 5 sample_world = Returns (3, w') ∧
    builders w' !! 5 =
      Some (copyDefaults_fields (produces sample_service)
              (consumes sample_service) sample_builder) ∧
    Build_fields
      (copyDefaults_fields (produces sample_service) (consumes sample_service)
         sample_builder) = inl r ∧
    services w' !! 3 = Some s' ∧
    WebService_Routes s' = WebService_Routes sample_service ++ [r] ∧
    (rb_produces sample_builder = [] → Route_Produces r = produces sample_service) ∧
    (rb_consumes sample_builder = [] → Route_Consumes r = consumes sample_service) ∧
    (rb_produces sample_builder ≠ [] → Route_Produces r = rb_produces sample_builder) ∧
    (rb_consumes sample_builder ≠ [] → Route_Consumes r = rb_consumes sample_builder) ∧
    (∀ ts, ∃ w'' s'',
       WebService_Produces 3 ts w' = Returns (3, w'') ∧
       services w'' !! 3 = Some s'' ∧
       WebService_Routes s'' = WebService_Routes sample_service ++ [r]) ∧
    (∀ ts, ∃ w'' s'',
       WebService_Consumes 3 ts w' = Returns (3, w'') ∧
       services w'' !! 3 = Some s'' ∧
       WebService_Routes s'' = WebService_Routes sample_service ++ [r]).
Proof.
  apply (Route_copies_defaults (H := sample) 3 5 sample_world sample_service
           sample_builder).
  - reflexivity.
  - reflexivity.
  - eexists. reflexivity.
Defined.

Lemma Path_sets_root_or_aborts_witness :
  (∃ w' s',
     WebService_Path (H := sample) 3 "/books" sample_world = Returns (3, w') ∧
     s' = set_pathExpression (Some ("^/books$" : @PathExpression sample))
            (set_rootPath "/books" sample_service) ∧
     w' = set_services (<[3 := s']> (services sample_world)) sample_world ∧
     services w' !! 3 = Some s' ∧
     WebService_RootPath s' = "/books" ∧
     WebService_RootExpression s' = Some ("^/books$" : @PathExpression sample)) ∧
  (∃ msg, WebService_Path (H := sample) 3 "/books/{id" sample_world = Fatal msg).
Proof.
  split.
  - apply (proj1 (Path_sets_root_or_aborts (H := sample) 3 "/books" sample_world
                    sample_service eq_refl)
             ("^/books$" : @PathExpression sample) eq_refl).
  - apply (proj2 (Path_sets_root_or_aborts (H := sample) 3 "/books/{id"
                    sample_world sample_service eq_refl)
             "unbalanced braces" eq_refl).
Defined.

Lemma factories_seed_fresh_builder_witness :
  creates_builder (H := sample) (WebService_Method 3 "PATCH") sample_world
    {| rb_rootPath := "/users"; rb_currentPath := ""; rb_httpMethod := "PATCH";
       rb_produces := []; rb_consumes := [] |} ∧
  creates_builder (H := sample) (WebService_GET 3 "/{id}") sample_world
    {| rb_rootPath := "/users"; rb_currentPath := "/{id}"; rb_httpMethod := "GET";
       rb_produces := []; rb_consumes := [] |} ∧
  creates_builder (H := sample) (WebService_POST 3 "/{id}") sample_world
    {| rb_rootPath := "/users"; rb_currentPath := "/{id}"; rb_httpMethod := "POST";
       rb_produces := []; rb_consumes := [] |} ∧
  creates_builder (H := sample) (WebService_PUT 3 "/{id}") sample_world
    {| rb_rootPath := "/users"; rb_currentPath := "/{id}"; rb_httpMethod := "PUT";
       rb_produces := []; rb_consumes := [] |} ∧
  creates_builder (H := sample) (WebService_DELETE 3 "/{id}") sample_world
    {| rb_rootPath := "/users"; rb_currentPath := "/{id}";
       rb_httpMethod := "DELETE"; rb_produces := []; rb_consumes := [] |}.
Proof.
  apply (factories_seed_fresh_builder (H := sample) 3 "PATCH" "/{id}" sample_world
           sample_service).
  reflexivity.
Defined.

Lemma Filter_appends_in_order_witness :
  ∃ w' s',
    Filter_all (H := sample) 3 [8; 9; 8] sample_world = Returns (3, w') ∧
    services w' !! 3 = Some s' ∧
    WebService_Filters s' = WebService_Filters sample_service ++ [8; 9; 8].
Proof.
  apply (Filter_appends_in_order (H := sample) 3 [8; 9; 8] sample_world
           sample_service).
  reflexivity.
Defined.

Lemma Route_changes_only_routes_witness :
  ∃ w' s',
    WebService_Route (H := sample) 3 5 sample_world = Returns (3, w') ∧
    services w' !! 3 = Some s' ∧
    rootPath s' = rootPath sample_service ∧
    pathExpression s' = pathExpression sample_service ∧
    produces s' = produces sample_service ∧
    consumes s' = consumes sample_service ∧
    pathParameters s' = pathParameters sample_service ∧
    filters s' = filters sample_service ∧
    (∀ other, other ≠ 3 → services w' !! other = services sample_world !! other).
Proof.
  apply (Route_changes_only_routes (H := sample) 3 5 sample_world sample_service
           sample_builder).
  - reflexivity.
  - reflexivity.
  - eexists. reflexivity.
Defined.

Lemma Produces_Consumes_replace_witness :
  (∃ w1 w2 s2,
     WebService_Produces (H := sample) 3 ["text/html"; "text/plain"] sample_world
       = Returns (3, w1) ∧
     WebService_Produces 3 ["application/xml"] w1 = Returns (3, w2) ∧
     WebService_Produces 3 ["application/xml"] sample_world = Returns (3, w2) ∧
     services w2 !! 3 = Some s2 ∧
     produces s2 = ["application/xml"] ∧
     s2 = set_produces ["application/xml"] sample_service) ∧
  (∃ w1 w2 s2,
     WebService_Consumes (H := sample) 3 ["text/html"; "text/plain"] sample_world
       = Returns (3, w1) ∧
     WebService_Consumes 3 ["application/xml"] w1 = Returns (3, w2) ∧
     WebService_Consumes 3 ["application/xml"] sample_world = Returns (3, w2) ∧
     services w2 !! 3 = Some s2 ∧
     consumes s2 = ["application/xml"] ∧
     s2 = set_consumes ["application/xml"] sample_service).
Proof.
  apply (Produces_Consumes_replace (H := sample) 3 ["text/html"; "text/plain"]
           ["application/xml"] sample_world sample_service).
  reflexivity.
Defined.

Lemma builder_keeps_root_of_creation_witness :
  keeps_root (H := sample) (WebService_Method 3 "PATCH") 3 sample_world
    "/users" "/books" ∧
  keeps_root (H := sample) (WebService_GET 3 "/{id}") 3 sample_world
    "/users" "/books" ∧
  keeps_root (H := sample) (WebService_POST 3 "/{id}") 3 sample_world
    "/users" "/books" ∧
  keeps_root (H := sample) (WebService_PUT 3 "/{id}") 3 sample_world
    "/users" "/books" ∧
  keeps_root (H := sample) (WebService_DELETE 3 "/{id}") 3 sample_world
    "/users" "/books".
Proof.
  apply (builder_keeps_root_of_creation (H := sample) 3 "PATCH" "/{id}" "/books"
           sample_world sample_service ("^/books$" : @PathExpression sample)).
  - reflexivity.
  - reflexivity.
Defined.

(** * Further properties of web_service.go *)

Section Registration.
Context `{Collaborators}.
Implicit Types (w : World) (s : WebService) (rb : RouteBuilder).

Lemma set_pathParameters_same s :
  set_pathParameters (pathParameters s) s = s.
Proof. by destruct s. Qed.

Lemma set_filters_same s : set_filters (filters s) s = s.
Proof. by destruct s. Qed.

Lemma set_services_same w : set_services (services w) w = w.
Proof. by destruct w. Qed.

(** One call of [Param]: the guard on a nil list leaves the list empty, and
    the pointer goes to the end. *)
Lemma Param_step self p w s :
  services w !! self = Some s →
  WebService_Param self p w =
    Returns (self,
      set_services
        (<[self := set_pathParameters (pathParameters s ++ [p]) s]> (services w))
        w).
Proof.
  intros Hs. unfold WebService_Param.
  erewrite bind_Returns by (by apply load_WebService_at).
  destruct (pathParameters s) as [|q qs] eqn:Hpp.
  - erewrite bind_Returns by (by apply assign_WebService_at).
    erewrite bind_Returns.
    2:{ apply assign_WebService_at. cbn. apply lookup_insert_eq. }
    unfold mret, M_ret. cbn. rewrite insert_insert_eq, ?Hpp. reflexivity.
  - erewrite bind_Returns by reflexivity.
    erewrite bind_Returns by (by apply assign_WebService_at).
    unfold mret, M_ret. cbn. rewrite ?Hpp. reflexivity.
Qed.

(** X1.  A sequence of [Param] calls returns and changes one thing only: the
    [pathParameters] of its service become the former list followed by the
    pointers passed, in the order of the calls.  The pointers are stored as
    they come, whether or not a parameter lives behind them; builders,
    parameters and other services are untouched. *)
Theorem Param_appends_in_order (self : nat) (ps : list nat) w s :
  services w !! self = Some s →
  ∃ s',
    s' = set_pathParameters (pathParameters s ++ ps) s ∧
    WebService_PathParameters s' = WebService_PathParameters s ++ ps ∧
    Param_all self ps w =
      Returns (self, set_services (<[self := s']> (services w)) w).
Proof.
  intros Hs. eexists. split; [reflexivity|]. split; [reflexivity|].
  revert w s Hs. induction ps as [|p ps IH]; intros w s Hs.
  - cbn. rewrite app_nil_r, set_pathParameters_same.
    rewrite (insert_id _ _ _ Hs), set_services_same. reflexivity.
  - cbn [Param_all]. erewrite bind_Returns by (by apply Param_step).
    erewrite IH by (cbn; apply lookup_insert_eq).
    cbn. rewrite insert_insert_eq, <- app_assoc. reflexivity.
Qed.

(** X2.  A sequence of [Filter] calls changes one thing only: the [filters]
    of its service.  Every other field of the service, every other service,
    and all builders and parameters are as before. *)
Theorem Filter_changes_only_filters (self : nat) (fs : list FilterFunction) w s :
  services w !! self = Some s →
  Filter_all self fs w =
    Returns (self,
      set_services (<[self := set_filters (filters s ++ fs) s]> (services w)) w).
Proof.
  revert w s. induction fs as [|f fs IH]; intros w s Hs.
  - cbn. rewrite app_nil_r, set_filters_same.
    rewrite (insert_id _ _ _ Hs), set_services_same. reflexivity.
  - cbn [Filter_all]. erewrite bind_Returns by (by apply Filter_step).
    erewrite IH by (cbn; apply lookup_insert_eq).
    cbn. rewrite insert_insert_eq, <- app_assoc. reflexivity.
Qed.

(** X3.  [Produces] and [Consumes] write to different fields and commute: in
    either order the service ends with both lists replaced and every other
    field as before. *)
Theorem Produces_Consumes_commute (self : nat) (ts us : list string) w s :
  services w !! self = Some s →
  ∃ w',
    w' = set_services
           (<[self := set_consumes us (set_produces ts s)]> (services w)) w ∧
    (WebService_Produces self ts;; WebService_Consumes self us) w =
      Returns (self, w') ∧
    (WebService_Consumes self us;; WebService_Produces self ts) w =
      Returns (self, w').
Proof.
  intros Hs. eexists. split; [reflexivity|]. split.
  - erewrite bind_Returns by (by apply Produces_step).
    erewrite Consumes_step by (cbn; apply lookup_insert_eq).
    cbn. by rewrite insert_insert_eq.
  - erewrite bind_Returns by (by apply Consumes_step).
    erewrite Produces_step by (cbn; apply lookup_insert_eq).
    cbn. by rewrite insert_insert_eq.
Qed.

(** X4.  [Path] keeps nothing of an earlier root: after a first [Path] that
    compiled, a second [Path(root)] has the outcome it would have had without
    the first, be it the new world or the fatal message. *)
Theorem Path_forgets_earlier_root (self : nat) (first root : string) w s compiled :
  services w !! self = Some s →
  NewPathExpression first = inl compiled →
  ∃ w1,
    WebService_Path self first w = Returns (self, w1) ∧
    WebService_Path self root w1 = WebService_Path self root w.
Proof.
  intros Hs Hc. eexists. split; [by apply Path_step|].
  destruct (NewPathExpression root) as [c|e] eqn:Hr.
  - erewrite (Path_step self root w) by done.
    erewrite Path_step; [|cbn; apply lookup_insert_eq|done].
    cbn. by rewrite insert_insert_eq.
  - erewrite (Path_aborts self root w) by done.
    erewrite Path_aborts; [done|cbn; apply lookup_insert_eq|done].
Qed.

Lemma Route_without_builder self b w s :
  services w !! self = Some s →
  builders w !! b = None →
  WebService_Route self b w = Panics.
Proof.
  intros Hs Hb. unfold WebService_Route.
  erewrite bind_Returns by (by apply load_WebService_at).
  unfold RouteBuilder_copyDefaults, assign_RouteBuilder, mbind, M_bind.
  by rewrite Hb.
Qed.

Ltac run_parameter unfolding :=
  eexists (fresh (dom (parameters _))), (fresh (dom (parameterData _))), _;
  split;
  [ unfolding;
    unfold Parameter_bePath, Parameter_beQuery, Parameter_beBody, Parameter_be,
      new_Parameter, new_ParameterData, load_Parameter, assign_ParameterData,
      mbind, M_bind, mret, M_ret;
    repeat (cbn [services builders parameters parameterData set_parameters
                 set_parameterData data];
            rewrite ?lookup_insert_eq, ?insert_insert_eq);
    reflexivity
  | split; [apply fresh_parameter_free|];
    split; [apply fresh_parameterData_free|done] ].

Lemma PathParameter_creates self name description w :
  creates_parameter (WebService_PathParameter self name description) w
    {| Name := name; Description := description; Kind := KindPath;
       Required := true; DataType := "" |}.
Proof. run_parameter ltac:(unfold WebService_PathParameter). Qed.

Lemma QueryParameter_creates self name description w :
  creates_parameter (WebService_QueryParameter self name description) w
    {| Name := name; Description := description; Kind := KindQuery;
       Required := false; DataType := "" |}.
Proof. run_parameter ltac:(unfold WebService_QueryParameter). Qed.

Lemma BodyParameter_creates self name description w :
  creates_parameter (WebService_BodyParameter self name description) w
    {| Name := name; Description := description; Kind := KindBody;
       Required := true; DataType := "" |}.
Proof. run_parameter ltac:(unfold WebService_BodyParameter). Qed.

Lemma grows_refl s : grows s s.
Proof. by repeat split. Qed.

Lemma grows_trans s1 s2 s3 : grows s1 s2 → grows s2 s3 → grows s1 s3.
Proof.
  intros (Hr & Hf & Hp) (Hr' & Hf' & Hp').
  repeat split; by etrans.
Qed.

Lemma preserved_same self w w' s :
  services w !! self = Some s → services w' = services w → preserved self w w' s.
Proof.
  intros Hs Heq. exists s. rewrite Heq.
  split; [done|]. split; [apply grows_refl|]. split; [done|done].
Qed.

Lemma preserved_insert self w w' s s' :
  services w' = <[self := s']> (services w) →
  grows s s' → (cache_valid s → cache_valid s') →
  preserved self w w' s.
Proof.
  intros Heq Hg Hc. exists s'. rewrite Heq.
  split; [apply lookup_insert_eq|]. split; [done|]. split; [done|].
  intros other Hne. by apply lookup_insert_ne.
Qed.

Lemma creates_builder_preserved (m : M nat) self w s rb x w' :
  services w !! self = Some s →
  creates_builder m w rb → m w = Returns (x, w') → preserved self w w' s.
Proof.
  intros Hs (b & w1 & Hm & _ & _ & Hs1 & _) Hrun.
  rewrite Hm in Hrun. injection Hrun as _ <-. by apply preserved_same.
Qed.

Lemma creates_parameter_preserved (m : M nat) self w s pd x w' :
  services w !! self = Some s →
  creates_parameter m w pd → m w = Returns (x, w') → preserved self w w' s.
Proof.
  intros Hs (p & d & w1 & Hm & _ & _ & _ & _ & Hs1 & _) Hrun.
  rewrite Hm in Hrun. injection Hrun as _ <-. by apply preserved_same.
Qed.

Lemma call_preserved self c w s x w' :
  services w !! self = Some s →
  call self c w = Returns (x, w') →
  preserved self w w' s.
Proof.
  intros Hs Hrun. destruct c; cbn [call] in Hrun.
  - destruct (NewPathExpression root) as [compiled|err] eqn:Hroot.
    + rewrite (Path_step _ _ _ _ _ Hs Hroot) in Hrun. injection Hrun as _ <-.
      eapply preserved_insert; [reflexivity|by repeat split|].
      intros _ c. cbn. by intros [= <-].
    + by rewrite (Path_aborts _ _ _ _ _ Hs Hroot) in Hrun.
  - rewrite (Param_step _ _ _ _ Hs) in Hrun. injection Hrun as _ <-.
    eapply preserved_insert; [reflexivity| |done].
    repeat split; cbn; [done..|by apply prefix_app_r].
  - eapply creates_parameter_preserved; [done|apply PathParameter_creates|done].
  - eapply creates_parameter_preserved; [done|apply QueryParameter_creates|done].
  - eapply creates_parameter_preserved; [done|apply BodyParameter_creates|done].
  - destruct (builders w !! builder) as [rb|] eqn:Hb.
    + destruct (Build_fields (copyDefaults_fields (produces s) (consumes s) rb))
        as [r|msg] eqn:Hr.
      * rewrite (Route_step _ _ _ _ _ _ Hs Hb Hr) in Hrun. injection Hrun as _ <-.
        eapply preserved_insert; [reflexivity| |done].
        repeat split; cbn; [by apply prefix_app_r|done..].
      * by rewrite (Route_aborts _ _ _ _ _ _ Hs Hb Hr) in Hrun.
    + by rewrite (Route_without_builder _ _ _ _ Hs Hb) in Hrun.
  - eapply creates_builder_preserved; [done|by apply Method_creates|done].
  - rewrite (Produces_step _ _ _ _ Hs) in Hrun. injection Hrun as _ <-.
    eapply preserved_insert; [reflexivity|by repeat split|done].
  - rewrite (Consumes_step _ _ _ _ Hs) in Hrun. injection Hrun as _ <-.
    eapply preserved_insert; [reflexivity|by repeat split|done].
  - rewrite (Filter_step _ _ _ _ Hs) in Hrun. injection Hrun as _ <-.
    eapply preserved_insert; [reflexivity| |done].
    repeat split; cbn; [done|by apply prefix_app_r|done].
  - eapply creates_builder_preserved; [done|by apply GET_creates|done].
  - eapply creates_builder_preserved; [done|by apply POST_creates|done].
  - eapply creates_builder_preserved; [done|by apply PUT_creates|done].
  - eapply creates_builder_preserved; [done|by apply DELETE_creates|done].
Qed.

Lemma script_preserved self cs :
  ∀ w s w',
    services w !! self = Some s →
    script self cs w = Returns ((), w') →
    preserved self w w' s.
Proof.
  induction cs as [|c cs IH]; intros w s w' Hs Hrun.
  - injection Hrun as <-. by apply preserved_same.
  - cbn [script] in Hrun. unfold mbind, M_bind in Hrun.
    destruct (call self c w) as [[x w1]|msg|] eqn:Hc; [|done..].
    destruct (call_preserved _ _ _ _ _ _ Hs Hc) as (s1 & Hs1 & Hg1 & Hv1 & Ho1).
    destruct (IH _ _ _ Hs1 Hrun) as (s' & Hs' & Hg & Hv & Ho).
    exists s'. split; [done|]. split; [by eapply grows_trans|].
    split; [by auto|]. intros other Hne. rewrite Ho by done. by apply Ho1.
Qed.

(** X5.  Whatever sequence of calls is made on a service, the cached
    [pathExpression] stays the compilation of [rootPath]: a script that
    starts from a service with a valid cache (a fresh one has none) and
    returns leaves a service with a valid cache. *)
Theorem script_keeps_cache_valid (self : nat) (cs : list Call) w s w' :
  services w !! self = Some s →
  cache_valid s →
  script self cs w = Returns ((), w') →
  ∃ s', services w' !! self = Some s' ∧ cache_valid s'.
Proof.
  intros Hs Hv Hrun.
  destruct (script_preserved _ _ _ _ _ Hs Hrun) as (s' & Hs' & _ & Hv' & _).
  exists s'. auto.
Qed.

(** X6.  Registration is append-only: whatever sequence of calls is made on
    a service, the routes, filters and path parameters it had are still
    there, in the same order, at the start of the lists it has afterwards. *)
Theorem script_only_appends (self : nat) (cs : list Call) w s w' :
  services w !! self = Some s →
  script self cs w = Returns ((), w') →
  ∃ s',
    services w' !! self = Some s' ∧
    WebService_Routes s `prefix_of` WebService_Routes s' ∧
    WebService_Filters s `prefix_of` WebService_Filters s' ∧
    WebService_PathParameters s `prefix_of` WebService_PathParameters s'.
Proof.
  intros Hs Hrun.
  destruct (script_preserved _ _ _ _ _ Hs Hrun) as (s' & Hs' & Hg & _ & _).
  exists s'. split; [done|exact Hg].
Qed.


Lemma plain_call_returns self c w s :
  services w !! self = Some s →
  plain c = true →
  ∃ x w', call self c w = Returns (x, w').
Proof.
  intros Hs Hplain. destruct c; try done; cbn [call].
  - rewrite (Param_step _ _ _ _ Hs). eauto.
  - destruct (PathParameter_creates self name description w)
      as (p & d & w' & Hm & _). eauto.
  - destruct (QueryParameter_creates self name description w)
      as (p & d & w' & Hm & _). eauto.
  - destruct (BodyParameter_creates self name description w)
      as (p & d & w' & Hm & _). eauto.
  - destruct (Method_creates self httpMethod w s Hs) as (b & w' & Hm & _). eauto.
  - rewrite (Produces_step _ _ _ _ Hs). eauto.
  - rewrite (Consumes_step _ _ _ _ Hs). eauto.
  - rewrite (Filter_step _ _ _ _ Hs). eauto.
  - destruct (GET_creates self subPath w s Hs) as (b & w' & Hm & _). eauto.
  - destruct (POST_creates self subPath w s Hs) as (b & w' & Hm & _). eauto.
  - destruct (PUT_creates self subPath w s Hs) as (b & w' & Hm & _). eauto.
  - destruct (DELETE_creates self subPath w s Hs) as (b & w' & Hm & _). eauto.
Qed.

(** X8.  Only [Path] and [Route] can fail on a live service: a script made
    of any other calls returns, whatever their arguments. *)
Theorem plain_script_returns (self : nat) (cs : list Call) w s :
  services w !! self = Some s →
  forallb plain cs = true →
  ∃ w', script self cs w = Returns ((), w').
Proof.
  revert w s. induction cs as [|c cs IH]; intros w s Hs Hplain.
  - by exists w.
  - cbn in Hplain. apply andb_true_iff in Hplain as [Hc Hcs].
    destruct (plain_call_returns _ _ _ _ Hs Hc) as (x & w1 & Hrun).
    destruct (call_preserved _ _ _ _ _ _ Hs Hrun) as (s1 & Hs1 & _).
    destruct (IH _ _ Hs1 Hcs) as (w' & Hrest).
    exists w'. cbn [script]. by erewrite bind_Returns by exact Hrun.
Qed.

Lemma factory_creates self c w s rb :
  services w !! self = Some s →
  seeded s c = Some rb →
  creates_builder (call self c) w rb.
Proof.
  intros Hs Hseed. destruct c; try done; cbn in Hseed; injection Hseed as <-;
    cbn [call].
  - by apply Method_creates.
  - by apply GET_creates.
  - by apply POST_creates.
  - by apply PUT_creates.
  - by apply DELETE_creates.
Qed.

(** X11.  Two factory calls in a row return two different builders, each
    holding its own seed; the second call leaves the first builder alone and
    neither writes to the service. *)
Theorem factories_return_distinct_builders (self : nat) (c1 c2 : Call) w s rb1 rb2 :
  services w !! self = Some s →
  seeded s c1 = Some rb1 →
  seeded s c2 = Some rb2 →
  ∃ b1 b2 w1 w2,
    call self c1 w = Returns (b1, w1) ∧
    call self c2 w1 = Returns (b2, w2) ∧
    b1 ≠ b2 ∧
    builders w2 !! b1 = Some rb1 ∧
    builders w2 !! b2 = Some rb2 ∧
    services w2 = services w.
Proof.
  intros Hs Hc1 Hc2.
  destruct (factory_creates self c1 w s rb1 Hs Hc1)
    as (b1 & w1 & Hm1 & Hf1 & Hb1 & Hs1 & _).
  assert (Hs' : services w1 !! self = Some s) by (by rewrite Hs1).
  destruct (factory_creates self c2 w1 s rb2 Hs' Hc2)
    as (b2 & w2 & Hm2 & Hf2 & Hb2 & Hs2 & _).
  assert (Hne : b1 ≠ b2).
  { intros ->. rewrite Hb1, lookup_insert_eq in Hf2. done. }
  exists b1, b2, w1, w2. repeat split; [done..| | |congruence].
  - rewrite Hb2, lookup_insert_ne, Hb1 by done. apply lookup_insert_eq.
  - rewrite Hb2. apply lookup_insert_eq.
Qed.

(** X13.  On a receiver that points to no service, every method that touches
    a field panics, while the three parameter factories, which never look at
    the receiver, return as usual. *)
Theorem calls_on_nil_receiver (self : nat) (c : Call) w :
  services w !! self = None →
  (needs_receiver c = true → call self c w = Panics) ∧
  (needs_receiver c = false → ∃ p w', call self c w = Returns (p, w')).
Proof.
  intros Hnil. split; intros Hc; destruct c; try done; cbn [call].
  - unfold WebService_Path, assign_WebService, mbind, M_bind. by rewrite Hnil.
  - unfold WebService_Param, load_WebService, mbind, M_bind. by rewrite Hnil.
  - unfold WebService_Route, load_WebService, mbind, M_bind. by rewrite Hnil.
  - unfold WebService_Method, load_WebService, mbind, M_bind. by rewrite Hnil.
  - unfold WebService_Produces, assign_WebService, mbind, M_bind. by rewrite Hnil.
  - unfold WebService_Consumes, assign_WebService, mbind, M_bind. by rewrite Hnil.
  - unfold WebService_Filter, assign_WebService, mbind, M_bind. by rewrite Hnil.
  - unfold WebService_GET, load_WebService, mbind, M_bind. by rewrite Hnil.
  - unfold WebService_POST, load_WebService, mbind, M_bind. by rewrite Hnil.
  - unfold WebService_PUT, load_WebService, mbind, M_bind. by rewrite Hnil.
  - unfold WebService_DELETE, load_WebService, mbind, M_bind. by rewrite Hnil.
  - destruct (PathParameter_creates self name description w)
      as (p & d & w' & Hm & _). eauto.
  - destruct (QueryParameter_creates self name description w)
      as (p & d & w' & Hm & _). eauto.
  - destruct (BodyParameter_creates self name description w)
      as (p & d & w' & Hm & _). eauto.
Qed.

Lemma Build_seeded P C rb compiled :
  rb_produces rb = [] →
  rb_consumes rb = [] →
  NewPathExpression (template rb) = inl compiled →
  Build_fields (copyDefaults_fields P C rb) =
    inl {| Route_Method := rb_httpMethod rb; Route_Path := template rb;
           Route_pathExpr := compiled; Route_Produces := P;
           Route_Consumes := C |}.
Proof.
  destruct rb as [r c m ps qs]. cbn. intros -> -> Hc.
  unfold Build_fields, copyDefaults_fields. cbn.
  unfold template in Hc. cbn in Hc. by rewrite Hc.
Qed.

Lemma creates_registers (m : M nat) self w s rb compiled :
  services w !! self = Some s →
  creates_builder m w rb →
  rb_produces rb = [] →
  rb_consumes rb = [] →
  NewPathExpression (template rb) = inl compiled →
  registers m self w s
    {| Route_Method := rb_httpMethod rb; Route_Path := template rb;
       Route_pathExpr := compiled; Route_Produces := produces s;
       Route_Consumes := consumes s |}.
Proof.
  intros Hs (b & w1 & Hm & Hfree & Hb1 & Hs1 & _) Hp Hq Hc.
  assert (Hs' : services w1 !! self = Some s) by (by rewrite Hs1).
  assert (Hb' : builders w1 !! b = Some rb)
    by (rewrite Hb1; apply lookup_insert_eq).
  eexists b, w1, _, _. split; [done|]. split; [done|].
  split; [eapply Route_step; [exact Hs'|exact Hb'|by apply Build_seeded]|].
  cbn. split; [apply lookup_insert_eq|done].
Qed.

(** X9.  The usual registration [ws.Route(ws.GET(subPath))], and the same
    with [POST], [PUT], [DELETE] or [Method(verb)], returns when the joined
    template compiles and appends one route: its method is the verb, its
    path the service's root path joined with the sub-path, and its produces
    and consumes lists are the service's defaults.  Nothing else of the
    service changes. *)
Theorem factory_then_Route (self : nat) (subPath : string) w s compiled :
  services w !! self = Some s →
  NewPathExpression (concatPath (rootPath s) subPath) = inl compiled →
  let route verb :=
    {| Route_Method := verb; Route_Path := concatPath (rootPath s) subPath;
       Route_pathExpr := compiled; Route_Produces := produces s;
       Route_Consumes := consumes s |} in
  registers (WebService_GET self subPath) self w s (route "GET") ∧
  registers (WebService_POST self subPath) self w s (route "POST") ∧
  registers (WebService_PUT self subPath) self w s (route "PUT") ∧
  registers (WebService_DELETE self subPath) self w s (route "DELETE") ∧
  (∀ verb, subPath = "" →
     registers (WebService_Method self verb) self w s (route verb)).
Proof.
  intros Hs Hc route.
  split; [exact (creates_registers _ self w s _ compiled Hs
                   (GET_creates self subPath w s Hs) eq_refl eq_refl Hc)|].
  split; [exact (creates_registers _ self w s _ compiled Hs
                   (POST_creates self subPath w s Hs) eq_refl eq_refl Hc)|].
  split; [exact (creates_registers _ self w s _ compiled Hs
                   (PUT_creates self subPath w s Hs) eq_refl eq_refl Hc)|].
  split; [exact (creates_registers _ self w s _ compiled Hs
                   (DELETE_creates self subPath w s Hs) eq_refl eq_refl Hc)|].
  intros verb Hsub. subst subPath.
  exact (creates_registers _ self w s _ compiled Hs
           (Method_creates self verb w s Hs) eq_refl eq_refl Hc).
Qed.

Lemma creates_registers_after_Path (m : M nat) self w s rb newRoot c1 c2 :
  services w !! self = Some s →
  creates_builder m w rb →
  rb_produces rb = [] →
  rb_consumes rb = [] →
  NewPathExpression newRoot = inl c1 →
  NewPathExpression (template rb) = inl c2 →
  registers_after_Path m self w s newRoot
    {| Route_Method := rb_httpMethod rb; Route_Path := template rb;
       Route_pathExpr := c2; Route_Produces := produces s;
       Route_Consumes := consumes s |}.
Proof.
  intros Hs (b & w1 & Hm & Hfree & Hb1 & Hs1 & _) Hp Hq Hc1 Hc2.
  assert (Hs' : services w1 !! self = Some s) by (by rewrite Hs1).
  assert (Hb' : builders w1 !! b = Some rb)
    by (rewrite Hb1; apply lookup_insert_eq).
  eexists b, w1, _, _, _. split; [done|].
  split; [by apply Path_step|].
  split.
  { eapply Route_step; [cbn; apply lookup_insert_eq|exact Hb'|].
    cbn. by apply Build_seeded. }
  cbn. split; [apply lookup_insert_eq|done].
Qed.

(** X10.  A builder made by [GET], [POST], [PUT] or [DELETE] and registered
    only after the service has moved to another root path yields a route
    under the old root path: the route's path is the old root joined with
    the sub-path, while [RootPath()] of the service is the new root. *)
Theorem stale_builder_registers_old_root (self : nat) (subPath newRoot : string)
    w s c1 c2 :
  services w !! self = Some s →
  NewPathExpression newRoot = inl c1 →
  NewPathExpression (concatPath (rootPath s) subPath) = inl c2 →
  let route verb :=
    {| Route_Method := verb; Route_Path := concatPath (rootPath s) subPath;
       Route_pathExpr := c2; Route_Produces := produces s;
       Route_Consumes := consumes s |} in
  registers_after_Path (WebService_GET self subPath) self w s newRoot (route "GET") ∧
  registers_after_Path (WebService_POST self subPath) self w s newRoot (route "POST") ∧
  registers_after_Path (WebService_PUT self subPath) self w s newRoot (route "PUT") ∧
  registers_after_Path (WebService_DELETE self subPath) self w s newRoot
    (route "DELETE").
Proof.
  intros Hs Hc1 Hc2 route.
  split; [exact (creates_registers_after_Path _ self w s _ newRoot c1 c2 Hs
                   (GET_creates self subPath w s Hs) eq_refl eq_refl Hc1 Hc2)|].
  split; [exact (creates_registers_after_Path _ self w s _ newRoot c1 c2 Hs
                   (POST_creates self subPath w s Hs) eq_refl eq_refl Hc1 Hc2)|].
  split; [exact (creates_registers_after_Path _ self w s _ newRoot c1 c2 Hs
                   (PUT_creates self subPath w s Hs) eq_refl eq_refl Hc1 Hc2)|].
  exact (creates_registers_after_Path _ self w s _ newRoot c1 c2 Hs
           (DELETE_creates self subPath w s Hs) eq_refl eq_refl Hc1 Hc2).
Qed.

Lemma creates_documents (m : M nat) self w s pd :
  services w !! self = Some s →
  creates_parameter m w pd →
  documents m self w s pd.
Proof.
  intros Hs (p & d & w1 & Hm & _ & _ & Hp1 & Hd1 & Hs1 & _).
  assert (Hs' : services w1 !! self = Some s) by (by rewrite Hs1).
  eexists p, d, w1, _, _. split; [done|].
  split; [by apply Param_step|].
  cbn. split; [apply lookup_insert_eq|]. split; [done|].
  rewrite Hp1, Hd1. split; apply lookup_insert_eq.
Qed.

(** X12.  [ws.Param(ws.PathParameter(name, description))], and the same with
    [BodyParameter] or [QueryParameter], returns and adds the new parameter
    at the end of the service's path parameters; the parameter documented
    has the name, description, kind and required flag its factory gives,
    and no other field of the service changes. *)
Theorem parameter_then_Param (self : nat) (name description : string) w s :
  services w !! self = Some s →
  documents (WebService_PathParameter self name description) self w s
    {| Name := name; Description := description; Kind := KindPath;
       Required := true; DataType := "" |} ∧
  documents (WebService_BodyParameter self name description) self w s
    {| Name := name; Description := description; Kind := KindBody;
       Required := true; DataType := "" |} ∧
  documents (WebService_QueryParameter self name description) self w s
    {| Name := name; Description := description; Kind := KindQuery;
       Required := false; DataType := "" |}.
Proof.
  intros Hs.
  split; [apply creates_documents; [done|apply PathParameter_creates]|].
  split; [apply creates_documents; [done|apply BodyParameter_creates]|].
  apply creates_documents; [done|apply QueryParameter_creates].
Qed.

Lemma same_settings_trans s1 s2 s3 :
  same_settings s1 s2 → same_settings s2 s3 → same_settings s1 s3.
Proof.
  intros (Hr & He & Hp & Hc) (Hr' & He' & Hp' & Hc').
  repeat split; congruence.
Qed.

Lemma call_keeps_settings self c w s x w' :
  services w !! self = Some s →
  setter c = false →
  call self c w = Returns (x, w') →
  ∃ s', services w' !! self = Some s' ∧ same_settings s s'.
Proof.
  intros Hs Hc Hrun.
  assert (Hsame : services w' = services w →
                  ∃ s', services w' !! self = Some s' ∧ same_settings s s').
  { intros Heq. exists s. rewrite Heq. by repeat split. }
  destruct c; try done; cbn [call] in Hrun.
  - rewrite (Param_step _ _ _ _ Hs) in Hrun. injection Hrun as _ <-.
    eexists. split; [cbn; apply lookup_insert_eq|by repeat split].
  - destruct (PathParameter_creates self name description w)
      as (p & d & w1 & Hm & _ & _ & _ & _ & Hs1 & _).
    rewrite Hm in Hrun. injection Hrun as _ <-. auto.
  - destruct (QueryParameter_creates self name description w)
      as (p & d & w1 & Hm & _ & _ & _ & _ & Hs1 & _).
    rewrite Hm in Hrun. injection Hrun as _ <-. auto.
  - destruct (BodyParameter_creates self name description w)
      as (p & d & w1 & Hm & _ & _ & _ & _ & Hs1 & _).
    rewrite Hm in Hrun. injection Hrun as _ <-. auto.
  - destruct (builders w !! builder) as [rb|] eqn:Hb.
    + destruct (Build_fields (copyDefaults_fields (produces s) (consumes s) rb))
        as [r|msg] eqn:Hr.
      * rewrite (Route_step _ _ _ _ _ _ Hs Hb Hr) in Hrun. injection Hrun as _ <-.
        eexists. split; [cbn; apply lookup_insert_eq|by repeat split].
      * by rewrite (Route_aborts _ _ _ _ _ _ Hs Hb Hr) in Hrun.
    + by rewrite (Route_without_builder _ _ _ _ Hs Hb) in Hrun.
  - destruct (Method_creates self httpMethod w s Hs) as (b & w1 & Hm & _ & _ & Hs1 & _).
    rewrite Hm in Hrun. injection Hrun as _ <-. auto.
  - rewrite (Filter_step _ _ _ _ Hs) in Hrun. injection Hrun as _ <-.
    eexists. split; [cbn; apply lookup_insert_eq|by repeat split].
  - destruct (GET_creates self subPath w s Hs) as (b & w1 & Hm & _ & _ & Hs1 & _).
    rewrite Hm in Hrun. injection Hrun as _ <-. auto.
  - destruct (POST_creates self subPath w s Hs) as (b & w1 & Hm & _ & _ & Hs1 & _).
    rewrite Hm in Hrun. injection Hrun as _ <-. auto.
  - destruct (PUT_creates self subPath w s Hs) as (b & w1 & Hm & _ & _ & Hs1 & _).
    rewrite Hm in Hrun. injection Hrun as _ <-. auto.
  - destruct (DELETE_creates self subPath w s Hs) as (b & w1 & Hm & _ & _ & Hs1 & _).
    rewrite Hm in Hrun. injection Hrun as _ <-. auto.
Qed.

(** X14.  The root path, its cached expression and the two default lists
    change through [Path], [Produces] and [Consumes] only: a script without
    these three calls leaves all four as they were, however many routes,
    filters, parameters and builders it makes. *)
Theorem settings_change_only_by_setters (self : nat) (cs : list Call) w s w' :
  services w !! self = Some s →
  forallb (λ c, negb (setter c)) cs = true →
  script self cs w = Returns ((), w') →
  ∃ s',
    services w' !! self = Some s' ∧
    WebService_RootPath s' = WebService_RootPath s ∧
    WebService_RootExpression s' = WebService_RootExpression s ∧
    produces s' = produces s ∧
    consumes s' = consumes s.
Proof.
  revert w s. induction cs as [|c cs IH]; intros w s Hs Hcs Hrun.
  - injection Hrun as <-. by exists s.
  - cbn in Hcs. apply andb_true_iff in Hcs as [Hc Hcs].
    apply negb_true_iff in Hc.
    cbn [script] in Hrun. unfold mbind, M_bind in Hrun.
    destruct (call self c w) as [[x w1]|msg|] eqn:Hcall; [|done..].
    destruct (call_keeps_settings _ _ _ _ _ _ Hs Hc Hcall) as (s1 & Hs1 & Hsame1).
    destruct (IH _ _ Hs1 Hcs Hrun) as (s' & Hs' & Hsame).
    exists s'. split; [done|].
    exact (same_settings_trans s s1 s' Hsame1 Hsame).
Qed.

End Registration.

(** * The further properties at the sample instance *)

Lemma sample_cache_valid : cache_valid (H := sample) sample_service.
Proof. intros compiled [= <-]. reflexivity. Qed.

Lemma sample_script_runs :
  script (H := sample) 3 sample_script sample_world =
    Returns ((), sample_script_world).
Proof. vm_compute. reflexivity. Qed.

Lemma sample_quiet_script_runs :
  script (H := sample) 3 sample_quiet_script sample_world =
    Returns ((), sample_quiet_world).
Proof. vm_compute. reflexivity. Qed.

Lemma Param_appends_in_order_witness :
  ∃ s',
    s' = set_pathParameters (pathParameters sample_service ++ [4; 0; 4])
           sample_service ∧
    WebService_PathParameters s' =
      WebService_PathParameters sample_service ++ [4; 0; 4] ∧
    Param_all (H := sample) 3 [4; 0; 4] sample_world =
      Returns (3, set_services (<[3 := s']> (services sample_world)) sample_world).
Proof.
  apply (Param_appends_in_order (H := sample) 3 [4; 0; 4] sample_world
           sample_service).
  reflexivity.
Defined.

Lemma Filter_changes_only_filters_witness :
  Filter_all (H := sample) 3 [8; 9] sample_world =
    Returns (3,
      set_services
        (<[3 := set_filters (filters sample_service ++ [8; 9]) sample_service]>
           (services sample_world)) sample_world).
Proof.
  apply (Filter_changes_only_filters (H := sample) 3 [8; 9] sample_world
           sample_service).
  reflexivity.
Defined.

Lemma Produces_Consumes_commute_witness :
  ∃ w',
    w' = set_services
           (<[3 := set_consumes ["text/csv"]
                     (set_produces ["text/html"] sample_service)]>
              (services sample_world)) sample_world ∧
    (WebService_Produces (H := sample) 3 ["text/html"];;
     WebService_Consumes 3 ["text/csv"]) sample_world = Returns (3, w') ∧
    (WebService_Consumes (H := sample) 3 ["text/csv"];;
     WebService_Produces 3 ["text/html"]) sample_world = Returns (3, w').
Proof.
  apply (Produces_Consumes_commute (H := sample) 3 ["text/html"] ["text/csv"]
           sample_world sample_service).
  reflexivity.
Defined.

Lemma Path_forgets_earlier_root_witness :
  (∃ w1,
     WebService_Path (H := sample) 3 "/books" sample_world = Returns (3, w1) ∧
     WebService_Path 3 "/shelves" w1 = WebService_Path 3 "/shelves" sample_world) ∧
  (∃ w1,
     WebService_Path (H := sample) 3 "/books" sample_world = Returns (3, w1) ∧
     WebService_Path 3 "/{shelf" w1 = WebService_Path 3 "/{shelf" sample_world).
Proof.
  split.
  - apply (Path_forgets_earlier_root (H := sample) 3 "/books" "/shelves"
             sample_world sample_service ("^/books$" : @PathExpression sample));
      reflexivity.
  - apply (Path_forgets_earlier_root (H := sample) 3 "/books" "/{shelf"
             sample_world sample_service ("^/books$" : @PathExpression sample));
      reflexivity.
Defined.

Lemma script_keeps_cache_valid_witness :
  ∃ s', services sample_script_world !! 3 = Some s' ∧ cache_valid (H := sample) s'.
Proof.
  apply (script_keeps_cache_valid (H := sample) 3 sample_script sample_world
           sample_service sample_script_world).
  - reflexivity.
  - exact sample_cache_valid.
  - exact sample_script_runs.
Defined.

Lemma script_only_appends_witness :
  ∃ s',
    services sample_script_world !! 3 = Some s' ∧
    WebService_Routes sample_service `prefix_of` WebService_Routes s' ∧
    WebService_Filters sample_service `prefix_of` WebService_Filters s' ∧
    WebService_PathParameters sample_service `prefix_of`
      WebService_PathParameters s'.
Proof.
  apply (script_only_appends (H := sample) 3 sample_script sample_world
           sample_service sample_script_world).
  - reflexivity.
  - exact sample_script_runs.
Defined.


Lemma plain_script_returns_witness :
  ∃ w',
    script (H := sample) 3
      [CallGET "/{id"; CallParam 0; CallFilter (9 : @FilterFunction sample);
       CallBodyParameter "body" ""; CallConsumes []] sample_world
    = Returns ((), w').
Proof.
  apply (plain_script_returns (H := sample) 3
           [CallGET "/{id"; CallParam 0; CallFilter (9 : @FilterFunction sample);
            CallBodyParameter "body" ""; CallConsumes []]
           sample_world sample_service).
  - reflexivity.
  - reflexivity.
Defined.

Lemma factory_then_Route_witness :
  let route verb :=
    {| Route_Method := verb; Route_Path := "/users/{id}";
       Route_pathExpr := "^/users/{id}$" : @PathExpression sample;
       Route_Produces := ["application/json"];
       Route_Consumes := ["application/xml"] |} in
  registers (H := sample) (WebService_GET 3 "/{id}") 3 sample_world
    sample_service (route "GET") ∧
  registers (H := sample) (WebService_POST 3 "/{id}") 3 sample_world
    sample_service (route "POST") ∧
  registers (H := sample) (WebService_PUT 3 "/{id}") 3 sample_world
    sample_service (route "PUT") ∧
  registers (H := sample) (WebService_DELETE 3 "/{id}") 3 sample_world
    sample_service (route "DELETE") ∧
  registers (H := sample) (WebService_Method 3 "PATCH") 3 sample_world
    sample_service
    {| Route_Method := "PATCH"; Route_Path := "/users";
       Route_pathExpr := "^/users$" : @PathExpression sample;
       Route_Produces := ["application/json"];
       Route_Consumes := ["application/xml"] |}.
Proof.
  pose proof (factory_then_Route (H := sample) 3 "/{id}" sample_world
                sample_service ("^/users/{id}$" : @PathExpression sample)
                eq_refl eq_refl) as (HG & HP & HU & HD & _).
  pose proof (factory_then_Route (H := sample) 3 "" sample_world
                sample_service ("^/users$" : @PathExpression sample)
                eq_refl eq_refl) as (_ & _ & _ & _ & HM).
  repeat split; [exact HG|exact HP|exact HU|exact HD|exact (HM "PATCH" eq_refl)].
Defined.

Lemma stale_builder_registers_old_root_witness :
  let route verb :=
    {| Route_Method := verb; Route_Path := "/users/{id}";
       Route_pathExpr := "^/users/{id}$" : @PathExpression sample;
       Route_Produces := ["application/json"];
       Route_Consumes := ["application/xml"] |} in
  registers_after_Path (H := sample) (WebService_GET 3 "/{id}") 3 sample_world
    sample_service "/books" (route "GET") ∧
  registers_after_Path (H := sample) (WebService_POST 3 "/{id}") 3 sample_world
    sample_service "/books" (route "POST") ∧
  registers_after_Path (H := sample) (WebService_PUT 3 "/{id}") 3 sample_world
    sample_service "/books" (route "PUT") ∧
  registers_after_Path (H := sample) (WebService_DELETE 3 "/{id}") 3 sample_world
    sample_service "/books" (route "DELETE").
Proof.
  apply (stale_builder_registers_old_root (H := sample) 3 "/{id}" "/books"
           sample_world sample_service
           ("^/books$" : @PathExpression sample)
           ("^/users/{id}$" : @PathExpression sample));
    reflexivity.
Defined.

Lemma factories_return_distinct_builders_witness :
  ∃ b1 b2 w1 w2,
    call (H := sample) 3 (CallGET "/{id}") sample_world = Returns (b1, w1) ∧
    call 3 (CallMethod "PATCH") w1 = Returns (b2, w2) ∧
    b1 ≠ b2 ∧
    builders w2 !! b1 =
      Some {| rb_rootPath := "/users"; rb_currentPath := "/{id}";
              rb_httpMethod := "GET"; rb_produces := []; rb_consumes := [] |} ∧
    builders w2 !! b2 =
      Some {| rb_rootPath := "/users"; rb_currentPath := "";
              rb_httpMethod := "PATCH"; rb_produces := []; rb_consumes := [] |} ∧
    services w2 = services sample_world.
Proof.
  apply (factories_return_distinct_builders (H := sample) 3 (CallGET "/{id}")
           (CallMethod "PATCH") sample_world sample_service);
    reflexivity.
Defined.

Lemma parameter_then_Param_witness :
  documents (H := sample) (WebService_PathParameter 3 "id" "identifier") 3
    sample_world sample_service
    {| Name := "id"; Description := "identifier"; Kind := KindPath;
       Required := true; DataType := "" |} ∧
  documents (H := sample) (WebService_BodyParameter 3 "id" "identifier") 3
    sample_world sample_service
    {| Name := "id"; Description := "identifier"; Kind := KindBody;
       Required := true; DataType := "" |} ∧
  documents (H := sample) (WebService_QueryParameter 3 "id" "identifier") 3
    sample_world sample_service
    {| Name := "id"; Description := "identifier"; Kind := KindQuery;
       Required := false; DataType := "" |}.
Proof.
  apply (parameter_then_Param (H := sample) 3 "id" "identifier" sample_world
           sample_service).
  reflexivity.
Defined.

Lemma calls_on_nil_receiver_witness :
  call (H := sample) 0 (CallFilter (9 : @FilterFunction sample)) sample_world
    = Panics ∧
  ∃ p w', call (H := sample) 0 (CallQueryParameter "q" "") sample_world
            = Returns (p, w').
Proof.
  split.
  - apply (proj1 (calls_on_nil_receiver (H := sample) 0
                    (CallFilter (9 : @FilterFunction sample)) sample_world
                    eq_refl) eq_refl).
  - apply (proj2 (calls_on_nil_receiver (H := sample) 0
                    (CallQueryParameter "q" "") sample_world eq_refl) eq_refl).
Defined.

Lemma settings_change_only_by_setters_witness :
  ∃ s',
    services sample_quiet_world !! 3 = Some s' ∧
    WebService_RootPath s' = WebService_RootPath sample_service ∧
    WebService_RootExpression s' = WebService_RootExpression sample_service ∧
    produces s' = produces sample_service ∧
    consumes s' = consumes sample_service.
Proof.
  apply (settings_change_only_by_setters (H := sample) 3 sample_quiet_script
           sample_world sample_service sample_quiet_world).
  - reflexivity.
  - reflexivity.
  - exact sample_quiet_script_runs.
Defined.
